(** * white-box: residual-stream plots and dataset chunking

    A shallow embedding of [white_box/data.py] and [white_box/plotting.py].
    Python values are modelled by their mathematical content: tensors are
    nested lists of real numbers, exceptions are values of [exn], and the
    statements that touch shared objects (forward hooks, tensors updated in
    place, the figure being drawn) act on an explicit state. *)

From Stdlib Require Import Reals Lra Lia ZArith List.
From Equations Require Import Equations.
From stdpp Require Import base option list strings gmap.
Import ListNotations.

(** ** Python exceptions and fallible computations *)

Inductive exn : Type :=
| ValueError (msg : string)
| NotImplementedError
| AssertionError
| AttributeError (msg : string)
| IndexError (msg : string)
| KeyError (key : string)
| StopIteration
| ForeignError (tag : string).

Inductive result (A : Type) : Type :=
| Ok (a : A)
| Raise (e : exn).
Arguments Ok {A} a.
Arguments Raise {A} e.

#[global] Instance result_ret : MRet result := fun _ a => Ok a.
#[global] Instance result_bind : MBind result := fun _ _ f m =>
  match m with
  | Ok a => f a
  | Raise e => Raise e
  end.

Definition is_ok {A} (r : result A) : bool :=
  match r with Ok _ => true | Raise _ => false end.

(** [mapM] runs a fallible function over a list, left to right, and stops
    at the first exception. *)
Fixpoint mapM {A B} (f : A → result B) (l : list A) : result (list B) :=
  match l with
  | [] => Ok []
  | x :: l' => y ← f x; ys ← mapM f l'; Ok (y :: ys)
  end.

(** ** The tokenizer

    The part of [PreTrainedTokenizerBase] the two files use.  [encode]
    gives the token ids of a text, [convert_ids_to_tokens] the display
    string of each id. *)
Record Tokenizer : Type := {
  eos_token : option string;
  model_max_length : nat;
  encode : string → list nat;
  convert_ids_to_tokens : list nat → list string
}.

(** ** data.py *)

Module Data.

(** A cell of a dataset column: a text, a list of integers (token ids or
    mask bits) or a single integer. *)
Inductive cell : Type :=
| Str (s : string)
| Ints (l : list nat)
| Int (n : nat).

(** A [Dataset] is a table stored by columns, in column order; a
    [DatasetDict] is an ordered dictionary of named splits. *)
Abbreviation Dataset := (list (string * list cell)).
Abbreviation DatasetDict := (list (string * Dataset)).

Inductive data : Type :=
| DS (d : Dataset)
| DD (dd : DatasetDict).

Definition column_names (d : Dataset) : list string := d.*1.

(** [x[key]] on a dictionary. *)
Fixpoint getitem {V} (x : list (string * V)) (key : string) : result V :=
  match x with
  | [] => Raise (KeyError key)
  | (k, v) :: x' => if bool_decide (k = key) then Ok v else getitem x' key
  end.

(** [get_columns_all_equal], data.py lines 97-116. *)
Definition get_columns_all_equal (dataset : data) : result (list string) :=
  match dataset with
  | DD dd =>
      let cols_by_split := map (λ kv, column_names kv.2) dd in
      match cols_by_split with
      | [] => Raise StopIteration
      | columns :: _ =>
          if negb (forallb (λ cols, bool_decide (cols = columns)) cols_by_split)
          then Raise (ValueError "All splits must have the same columns")
          else Ok columns
      end
  | DS d => Ok (column_names d)
  end.

(** The overflow windows a tokenizer returns under [truncation=True,
    return_overflowing_tokens=True]: consecutive runs of [m] tokens, the
    last one holding whatever is left (a text of at most [m] tokens is a
    single window). *)
Equations? windows {A} (m : nat) (l : list A) : list (list A)
  by wf (List.length l) Nat.lt :=
  windows m l with decide (m = 0 ∨ List.length l ≤ m) => {
    | left _ := [l];
    | right _ := take m l :: windows m (drop m l) }.
Proof. rewrite length_drop. lia. Qed.

(** [tokenizer(text, max_length=m, return_overflowing_tokens=True,
    truncation=True).items()]. *)
Definition tokenizer_call (tokenizer : Tokenizer) (text : string) (m : nat)
  : list (string * list cell) :=
  let chunks := windows m (encode tokenizer text) in
  [ ("input_ids"%string, Ints <$> chunks);
    ("attention_mask"%string, (λ c, Ints (replicate (List.length c) 1)) <$> chunks);
    ("overflow_to_sample_mapping"%string, (λ _, Int 0) <$> chunks) ].

(** [tokenizer.eos_token or "<|endoftext|>"]: [None] and the empty string
    are both falsy. *)
Definition separator (tokenizer : Tokenizer) : string :=
  match eos_token tokenizer with
  | Some s => if bool_decide (s = EmptyString) then "<|endoftext|>"%string else s
  | None => "<|endoftext|>"%string
  end.

Definition max_length (tokenizer : Tokenizer) : nat :=
  Nat.min (model_max_length tokenizer) 2048.

(** The texts of a batch: every cell of the text column must be a string
    for [sep.join] to accept it. *)
Definition as_text (c : cell) : result string :=
  match c with
  | Str s => Ok s
  | _ => Raise (ForeignError "TypeError")
  end.

(** [v[:-1]] *)
Definition drop_last {A} (v : list A) : list A := removelast v.

(** [_tokenize_fn], data.py lines 80-94. *)
Definition _tokenize_fn (x : Dataset) (tokenizer : Tokenizer) (text_key : string)
  : result Dataset :=
  let sep := separator tokenizer in
  col ← getitem x text_key;
  texts ← mapM as_text col;
  Ok (map (λ kv : string * list cell, (kv.1, drop_last kv.2))
         (tokenizer_call tokenizer (String.concat sep texts) (max_length tokenizer))).

(** What [Dataset.map(fn, batched=True, remove_columns=...)] does with one
    batch: the columns to remove are dropped from the batch and the
    function's output columns are added, replacing columns of the same
    name. *)
Definition remove_columns (remove : list string) (d : Dataset) : Dataset :=
  filter (λ kv, kv.1 ∉ remove) d.

Definition dict_update (d out : Dataset) : Dataset :=
  filter (λ kv, kv.1 ∉ out.*1) d ++ out.

Definition column (d : Dataset) (k : string) : list cell :=
  match getitem d k with Ok v => v | Raise _ => [] end.

(** The processed batches are written one after the other, column by
    column. *)
Definition concat_batches (outs : list Dataset) : Dataset :=
  match outs with
  | [] => []
  | o :: _ => map (λ kv : string * list cell,
                     (kv.1, concat (map (λ b, column b kv.1) outs))) o
  end.

Section Map.

(** How [Dataset.map] groups the rows of a dataset into batches depends on
    its batch size and on the number of worker processes
    ([cpu_count() // 2]); the grouping is a parameter of the model. *)
Variable split_batches : Dataset → list Dataset.

Definition Dataset_map (fn : Dataset → result Dataset) (remove : list string)
  (d : Dataset) : result Dataset :=
  outs ← mapM (λ b, out ← fn b; Ok (dict_update (remove_columns remove b) out))
              (split_batches d);
  Ok (match outs with
      | [] => remove_columns remove d
      | _ => concat_batches outs
      end).

(** [data.map(...)] on a [Dataset] or, split by split, on a
    [DatasetDict]. *)
Definition data_map (fn : Dataset → result Dataset) (remove : list string)
  (dataset : data) : result data :=
  match dataset with
  | DS d => d' ← Dataset_map fn remove d; Ok (DS d')
  | DD dd =>
      dd' ← mapM (λ kv : string * Dataset,
                    d' ← Dataset_map fn remove kv.2; Ok (kv.1, d')) dd;
      Ok (DD dd')
  end.

(** [with_format(format, columns=[...])] shows the listed columns only and
    refuses a column the dataset does not have. *)
Definition Dataset_with_format (columns : list string) (d : Dataset)
  : result Dataset :=
  if forallb (λ c, bool_decide (c ∈ column_names d)) columns
  then mapM (λ c, v ← getitem d c; Ok (c, v)) columns
  else Raise (ValueError "Columns not in the dataset").

Definition with_format (columns : list string) (dataset : data) : result data :=
  match dataset with
  | DS d => d' ← Dataset_with_format columns d; Ok (DS d')
  | DD dd =>
      dd' ← mapM (λ kv : string * Dataset,
                    d' ← Dataset_with_format columns kv.2; Ok (kv.1, d')) dd;
      Ok (DD dd')
  end.

(** [chunk_and_tokenize], data.py lines 13-45.  The arguments of
    [data.map] are evaluated before the call, so a failure of
    [get_columns_all_equal] comes first. *)
Definition chunk_and_tokenize (dataset : data) (tokenizer : Tokenizer)
  (format : string) (text_key : string) : result data :=
  remove ← get_columns_all_equal dataset;
  mapped ← data_map (λ x, _tokenize_fn x tokenizer text_key) remove dataset;
  with_format ["input_ids"%string; "attention_mask"%string] mapped.

End Map.





(** Two column lists name the same set of columns. *)
Definition same_column_set (a b : list string) : Prop :=
  ∀ c, c ∈ a ↔ c ∈ b.

(** A character-level tokenizer with a four-token context, used to run the
    definitions on concrete corpora. *)
Definition char_tokenizer : Tokenizer :=
  {| eos_token := Some "|"%string;
     model_max_length := 4;
     encode := λ s, map Ascii.nat_of_ascii (String.list_ascii_of_string s);
     convert_ids_to_tokens :=
       map (λ n, String (Ascii.ascii_of_nat n) EmptyString) |}.

(** One batch per dataset. *)
Definition one_batch (d : Dataset) : list Dataset := [d].

Definition corpus (texts : list string) : Dataset :=
  [("text"%string, Str <$> texts)].

Definition two_splits : DatasetDict :=
  [("train"%string, corpus ["a"]%string); ("test"%string, corpus ["b"; "c"]%string)].

Definition odd_splits : DatasetDict :=
  [("train"%string, corpus ["a"]%string);
   ("test"%string, [("label"%string, [Int 0])])].



(** *** The ratio of nats per token to bits per byte

    A text is held as the bytes of its UTF-8 encoding, so the length of
    [txt.encode("utf-8")] is the length of the string, and [len(txt)]
    counts the bytes that start a code point. *)
Definition encoded_length (c : cell) : result nat :=
  match c with
  | Str s => Ok (String.length s)
  | _ => Raise (AttributeError "encode")
  end.

Definition is_continuation (a : Ascii.ascii) : bool :=
  match a with
  | Ascii.Ascii _ _ _ _ _ _ b6 b7 => b7 && negb b6
  end.

(** [len(ids)] *)
Definition py_len (c : cell) : result nat :=
  match c with
  | Ints l => Ok (List.length l)
  | Str s => Ok (List.length (List.filter (λ a, negb (is_continuation a))
                                (String.list_ascii_of_string s)))
  | Int _ => Raise (ForeignError "TypeError")
  end.

(** The two functions mapped over the batches, lines 61 and 68. *)
Definition byte_counts_fn (x : Dataset) : result Dataset :=
  col ← getitem x "text";
  lengths ← mapM encoded_length col;
  Ok [("length"%string, map Int lengths)].

Definition token_counts_fn (x : Dataset) : result Dataset :=
  col ← getitem x "input_ids";
  lengths ← mapM py_len col;
  Ok [("length"%string, map Int lengths)].

Definition as_int (c : cell) : result nat :=
  match c with
  | Int n => Ok n
  | _ => Raise (ForeignError "TypeError")
  end.

Definition n_rows (d : Dataset) : nat :=
  match d with
  | [] => 0
  | (_, col) :: _ => List.length col
  end.

(** [sum(counts["length"])].  On a [Dataset] the subscript is a column; on
    a [DatasetDict] it is a split, whose rows are dictionaries and cannot
    be added to a number. *)
Definition sum_length (counts : data) : result nat :=
  match counts with
  | DS d => col ← getitem d "length"; ns ← mapM as_int col; Ok (sum_list ns)
  | DD dd =>
      split ← getitem dd "length";
      if bool_decide (n_rows split = 0) then Ok 0
      else Raise (ForeignError "TypeError")
  end.

Section Ratio.
Variable split_batches : Dataset → list Dataset.

(** [compute_nats_to_bpb_ratio], data.py lines 48-77. *)
Definition compute_nats_to_bpb_ratio (raw tokenized : data) : result R :=
  remove ← get_columns_all_equal raw;
  byte_counts ← data_map split_batches byte_counts_fn remove raw;
  remove' ← get_columns_all_equal tokenized;
  token_counts ← data_map split_batches token_counts_fn remove' tokenized;
  total_bytes ← sum_length byte_counts;
  total_tokens ← sum_length token_counts;
  if bool_decide (total_bytes = 0) then Raise (ForeignError "ZeroDivisionError")
  else Ok (INR total_tokens / INR total_bytes / ln 2)%R.

End Ratio.

(** A tokenized dataset of two records. *)
Definition two_records : Dataset :=
  [("input_ids"%string, [Ints [97; 98]; Ints [99]])].


(** The batches of a dataset hold, one after the other, the cells [cells]
    in the column [key]. *)
Definition batches_hold (split_batches : Dataset → list Dataset)
  (key : string) (d : Dataset) (cells : list cell) : Prop :=
  split_batches d ≠ [] ∧
  ∃ cols, Forall2 (λ b col, getitem b key = Ok col) (split_batches d) cols ∧
          concat cols = cells.

End Data.

(** ** Tensors

    A tensor of rank three is a list (batch) of lists (sequence positions)
    of vectors; reducing the last axis leaves a tensor of rank two.  The
    numbers are real numbers: rounding is not modelled.  Wherever
    plotting.py combines two tensors they have the same shape, and
    [zip_with] pairs their elements. *)

Module Torch.

Abbreviation vec := (list R).
Abbreviation Tensor := (list (list (list R))).
Abbreviation Tensor2 := (list (list R)).

Definition vsum (v : vec) : R := foldr Rplus 0%R v.

Definition pointwise (f : R → R) (x : Tensor) : Tensor :=
  map (map (map f)) x.

Definition pointwise2 (f : R → R → R) (x y : Tensor) : Tensor :=
  zip_with (zip_with (zip_with f)) x y.

(** [x.exp()], [x * y], [x - y], [x + y] *)
Definition t_exp : Tensor → Tensor := pointwise exp.
Definition t_mul : Tensor → Tensor → Tensor := pointwise2 Rmult.
Definition t_sub : Tensor → Tensor → Tensor := pointwise2 Rminus.
Definition t_add : Tensor → Tensor → Tensor := pointwise2 Rplus.

(** [th.zeros_like(x)] *)
Definition zeros_like : Tensor → Tensor := pointwise (λ _, 0%R).

(** [th.sum(x, dim=-1)] and unary minus on its result *)
Definition t_sum_last (x : Tensor) : Tensor2 := map (map vsum) x.
Definition t2_neg (x : Tensor2) : Tensor2 := map (map Ropp) x.

(** [x.log_softmax(dim=-1)]: each vector minus the logarithm of the sum of
    its exponentials. *)
Definition log_softmax_vec (v : vec) : vec :=
  let lse := ln (vsum (map exp v)) in
  map (λ a, (a - lse)%R) v.

Definition log_softmax (x : Tensor) : Tensor := map (map log_softmax_vec) x.

(** The value a tensor has for sequence [b] of the batch at position [t]:
    a vector for a tensor of rank three, a number for one of rank two. *)
Definition at_token {A} (x : list (list A)) (b t : nat) : option A :=
  row ← x !! b; row !! t.

(** Python's [l[start:stop]] for a positive step. *)
Definition clamp_index (len : nat) (i : Z) : nat :=
  if (i <? 0)%Z then Z.to_nat (Z.max 0 (Z.of_nat len + i))
  else Nat.min (Z.to_nat i) len.

Definition py_slice {A} (start : Z) (stop : option Z) (l : list A) : list A :=
  let len := List.length l in
  let lo := clamp_index len start in
  let hi := match stop with None => len | Some e => clamp_index len e end in
  take (hi - lo) (drop lo l).

(** [x[..., start:stop, :]] *)
Definition slice_positions (start : Z) (stop : option Z) (x : Tensor) : Tensor :=
  map (py_slice start stop) x.

End Torch.

(** ** The residual stream container *)

Module Stream.

(** Modelled from the spec: residual_stream.py is not among the sources.
    A [ResidualStream] is an ordered sequence of named entries, the
    embeddings first when present, then the layers by increasing depth. *)
Abbreviation ResidualStream A := (list (string * A)).

(** Modelled from the spec: [map(f)] applies [f] to every entry's tensor
    and returns a new container with the same names and order. *)
Definition smap {A B} (f : A → B) (s : ResidualStream A) : ResidualStream B :=
  map (λ e : string * A, (e.1, f e.2)) s.

(** [smap] for a function that may raise: entries are visited in order and
    the first exception ends the traversal. *)
Definition smapM {A B} (f : A → result B) (s : ResidualStream A)
  : result (ResidualStream B) :=
  mapM (λ e : string * A, y ← f e.2; Ok (e.1, y)) s.

(** Modelled from the spec: iterating a stream yields its tensors in
    order, [labels()] its entry names. *)
Definition tensors {A} (s : ResidualStream A) : list A := s.*2.
Definition labels {A} (s : ResidualStream A) : list string := s.*1.

Definition is_layer {A} (e : string * A) : bool :=
  negb (bool_decide (e.1 = "embeddings"%string)).

(** Modelled from the spec: the [layers] attribute holds the entries other
    than the embeddings; [s.embeddings = None] removes the embeddings
    entry. *)
Definition layers {A} (s : ResidualStream A) : list A :=
  (List.filter is_layer s).*2.
Definition without_embeddings {A} (s : ResidualStream A) : ResidualStream A :=
  List.filter is_layer s.

End Stream.

(** ** Models, forward hooks and the recorder *)

Module Recorder.
Import Torch Stream.

Record Norm : Type := {
  is_LayerNorm : bool;
  norm_apply : Tensor → Tensor
}.

(** A transformer block returns a tuple whose first component is the new
    hidden state. *)
Abbreviation Block := (Tensor → Tensor * list Tensor).

(** The part of a [PreTrainedModel] that plotting.py uses.  [forward]
    gives, for a batch of one sequence of token ids, the modules called
    (with their outputs, in call order) and then either the logits or the
    exception that ended the pass.  The handles found by model_surgery.py,
    which is not among the sources, are fields of the model. *)
Record Model : Type := {
  name_or_path : string;
  vocab_size : nat;
  forward : list nat → list (string * Tensor) * result Tensor;
  capture_points : bool → list string;
  get_output_embeddings : Tensor → Tensor;
  get_final_layer_norm : result Norm;
  get_transformer_layers : result (list Block)
}.

(** A forward hook registered on a module: its handle, the module, and the
    recording it appends to. *)
Record Hook : Type := {
  handle : nat;
  hooked_module : string;
  target : nat
}.

Record Heatmap : Type := {
  data : list (list R);
  annot : list (list string);
  cbar_label : option string;
  fmt : string;
  vmax : option R;
  xticklabels : list string;
  yticklabels : list string
}.

Inductive Draw : Type :=
| Subplots (width height : Z)
| DrawHeatmap (h : Heatmap)
| Title (s : string).

(** The shared state: the hooks registered on the model, the streams under
    construction, a counter for fresh handles, and what was drawn. *)
Record World : Type := {
  hooks : list Hook;
  recordings : gmap nat (list (string * Tensor));
  fresh : nat;
  figure : list Draw
}.

Definition M (A : Type) : Type := World → World * result A.

#[global] Instance M_ret : MRet M := λ _ a w, (w, Ok a).
#[global] Instance M_bind : MBind M := λ _ _ f m w,
  match m w with
  | (w', Ok a) => f a w'
  | (w', Raise e) => (w', Raise e)
  end.

Definition lift {A} (r : result A) : M A := λ w, (w, r).
Definition raise {A} (e : exn) : M A := lift (Raise e).

Definition draw (d : Draw) : M unit := λ w,
  ({| hooks := hooks w; recordings := recordings w; fresh := fresh w;
      figure := figure w ++ [d] |}, Ok ()).

(** A computation that draws nothing. *)
Definition keeps_figure {A} (m : M A) : Prop :=
  ∀ w, figure (m w).1 = figure w.

(** A module call runs the hooks registered on that module, in
    registration order; each appends the output to its recording. *)
Definition fire_hook (c : string * Tensor)
  (recs : gmap nat (list (string * Tensor))) (h : Hook)
  : gmap nat (list (string * Tensor)) :=
  if bool_decide (hooked_module h = c.1)
  then <[target h := (recs !!! target h) ++ [c]]> recs
  else recs.

Definition fire (hs : list Hook) (recs : gmap nat (list (string * Tensor)))
  (c : string * Tensor) : gmap nat (list (string * Tensor)) :=
  foldl (fire_hook c) recs hs.

(** [model(input_ids)] *)
Definition call_model (model : Model) (input_ids : list nat) : M Tensor := λ w,
  let '(calls, r) := forward model input_ids in
  ({| hooks := hooks w; recordings := foldl (fire (hooks w)) (recordings w) calls;
      fresh := fresh w; figure := figure w |}, r).

(** Modelled from the spec: residual_stream.py is not among the sources.
    Entering the recorder registers one hook per capture point, all
    appending to the recording [id]; leaving it removes the hooks it
    registered, found by their handles. *)
Definition attach (id : nat) (points : list string) : list Hook :=
  imap (λ i name, {| handle := id + 1 + i; hooked_module := name; target := id |})
       points.

Definition detach (attached : list Hook) (hs : list Hook) : list Hook :=
  filter (λ h, handle h ∉ handle <$> attached) hs.

(** The calls a set of capture points observes. *)
Definition captured (points : list string) (calls : list (string * Tensor))
  : list (string * Tensor) :=
  filter (λ c : string * Tensor, c.1 ∈ points) calls.

(** Modelled from the spec: residual_stream.py is not among the sources.
    [with record_residual_stream(model, sublayers) as stream: body] attaches
    a capture point to every module listed for the chosen granularity, runs
    the body, and on both exits removes every capture point it attached; an
    exception of the body is raised again unchanged, otherwise the stream
    holds what the capture points observed, in call order. *)
Definition record_residual_stream {B} (model : Model) (sublayers : bool)
  (body : M B) : M (ResidualStream Tensor * B) := λ w,
  let id := fresh w in
  let attached := attach id (capture_points model sublayers) in
  let w1 := {| hooks := hooks w ++ attached;
               recordings := <[id := []]> (recordings w);
               fresh := id + 1 + List.length attached;
               figure := figure w |} in
  let '(w2, r) := body w1 in
  let w3 := {| hooks := detach attached (hooks w2);
               recordings := recordings w2;
               fresh := fresh w2;
               figure := figure w2 |} in
  (w3, match r with
       | Ok b => Ok (recordings w2 !!! id, b)
       | Raise e => Raise e
       end).

End Recorder.

(** ** plotting.py *)

Module Plotting.
Import Torch Stream Recorder.

Inductive model_arg : Type :=
| AModel (m : Model)
| AName (s : string)
| AnythingElse.

Record Outputs : Type := { logits : Tensor }.

Record TunedLens : Type := {
  transform : ResidualStream Tensor → ResidualStream Tensor
}.

(** *** Python indexing *)

(** [range(lo, hi)] *)
Definition py_range (lo hi : Z) : list Z :=
  map (λ k, (lo + Z.of_nat k)%Z) (seq 0 (Z.to_nat (hi - lo))).

(** [l[i]]: a negative index counts from the end, and an index outside
    the list raises [IndexError]. *)
Definition py_index {A} (l : list A) (i : Z) : result A :=
  let n := Z.of_nat (List.length l) in
  let j := if (i <? 0)%Z then (i + n)%Z else i in
  if (j <? 0)%Z then Raise (IndexError "index out of range")
  else match l !! Z.to_nat j with
       | Some a => Ok a
       | None => Raise (IndexError "index out of range")
       end.

Definition every_nth {A} (k : nat) (l : list A) : list A :=
  omap (λ o, o) (imap (λ i x, if bool_decide (i mod k = 0) then Some x else None) l).

(** [l[::k]] *)
Definition py_step {A} (k : Z) (l : list A) : result (list A) :=
  if (k =? 0)%Z then Raise (ValueError "slice step cannot be zero")
  else if (0 <? k)%Z then Ok (every_nth (Z.to_nat k) l)
  else Ok (every_nth (Z.to_nat (- k)) (reverse l)).

Fixpoint foldlM {A B} (f : A → B → result A) (l : list B) (a : A) : result A :=
  match l with
  | [] => Ok a
  | b :: l' => a' ← f a b; foldlM f l' a'
  end.

(** *** The decoder of the logit lens, lines 59-64 *)

Definition decode_fn (layers : list Block) (E ln_f : Tensor → Tensor)
  (extra_decoder_layers : Z) (x : Tensor) : result Tensor :=
  let L := Z.of_nat (List.length layers) in
  x' ← foldlM (λ x i, layer ← py_index layers i; Ok (layer x).1)
              (py_range (L - extra_decoder_layers) L) x;
  Ok (log_softmax (E (ln_f x'))).

(** *** The metrics, lines 80 and 92 *)

Definition entropy_fn (x : Tensor) : Tensor2 :=
  t2_neg (t_sum_last (t_mul (t_exp x) x)).

Definition kl_fn (log_probs x : Tensor) : Tensor2 :=
  t_sum_last (t_mul (t_exp log_probs) (t_sub log_probs x)).

(** *** The residual means, lines 43-47

    The loop updates tensors in place, so it runs on a store in which the
    entries of both streams are references.  [acc] is a tensor of its own:
    [state += acc] writes the tensor [state] refers to, [acc += mean] reads
    the one [mean] refers to. *)
Fixpoint accumulate (h : gmap nat Tensor) (acc : Tensor) (pairs : list (nat * nat))
  : gmap nat Tensor :=
  match pairs with
  | [] => h
  | (state, mean) :: rest =>
      let h' := <[state := t_add (h !!! state) acc]> h in
      accumulate h' (t_add acc (h' !!! mean)) rest
  end.

Definition add_residual_means (h : gmap nat Tensor)
  (stream residual_means : ResidualStream nat) : result (gmap nat Tensor) :=
  match layers residual_means with
  | [] => Raise (IndexError "list index out of range")
  | first :: _ =>
      Ok (accumulate h (zeros_like (h !!! first))
            (zip (reverse (tensors stream)) (reverse (tensors residual_means))))
  end.

(** The stream of a call and the means passed by the caller share no
    tensor, so they are laid out one after the other in a store of their
    own; the stream the rest of the function sees is read back from it. *)
Definition refs {A} (base : nat) (s : ResidualStream A) : ResidualStream nat :=
  imap (λ i e, (e.1, base + i)) s.

Definition with_residual_means (stream residual_means : ResidualStream Tensor)
  : result (ResidualStream Tensor) :=
  let n := List.length stream in
  let h0 : gmap nat Tensor :=
    list_to_map (zip (seq 0 n) (tensors stream) ++
                 zip (seq n (List.length residual_means)) (tensors residual_means)) in
  h ← add_residual_means h0 (refs 0 stream) (refs n residual_means);
  Ok (smap (λ l, h !!! l) (refs 0 stream)).


(** Running the blocks [blocks] one after the other on a hidden state. *)
Definition rerun (blocks : list Block) (x : Tensor) : Tensor :=
  foldl (λ x (layer : Block), (layer x).1) x blocks.

(** Handles and recordings are numbered from a counter, so in a state
    reached by running the program every hook has a handle and a target
    below [fresh]. *)
Definition fresh_above (w : World) : Prop :=
  Forall (λ h, handle h < fresh w ∧ target h < fresh w) (hooks w).

(** The token ids a call works on, lines 203-206: those of the text when
    there is one, the given ones otherwise. *)
Definition chosen_input (tokenizer : Tokenizer) (text : option string)
  (input_ids : option (list nat)) : option (list nat) :=
  match text with
  | Some t => Some (encode tokenizer t)
  | None => input_ids
  end.


(** The arguments of [plot_logit_lens]. *)
Record LensArgs : Type := {
  model_or_name : model_arg;
  input_ids : option (list nat);
  extra_decoder_layers : Z;
  layer_stride : Z;
  metric : string;
  residual_means : option (ResidualStream Tensor);
  sublayers : bool;
  start_pos : Z;
  end_pos : option Z;
  text : option string;
  tuned_lens : option TunedLens;
  tokenizer : option Tokenizer;
  whitespace_token : string;
  whitespace_replacement : string
}.

(** The metric names listed in the signature, line 27. *)
Definition declared_metrics : list string :=
  ["ce"; "geodesic"; "entropy"; "js"; "kl"]%string.

(** What lines 39-76 leave for the rest of [plot_logit_lens]. *)
Record Decoded : Type := {
  the_model : Model;
  tokens : list string;
  outputs : Outputs;
  hidden_lps : ResidualStream Tensor;
  top_strings : ResidualStream (list string);
  max_color : R
}.

Section Collaborators.

(** Loading a model or a tokenizer by name. *)
Variable AutoModelForCausalLM_from_pretrained : string → result Model.
Variable AutoTokenizer_from_pretrained : string → result Tokenizer.
(** [x.argmax(-1).squeeze().cpu().tolist()] and [t.replace(old, new)] *)
Variable argmax_tokens : Tensor → list nat.
Variable str_replace : string → string → string → string.
(** [pairwise_map] of residual_stream.py and the distances of stats.py,
    none of them among the sources. *)
Variable pairwise_map :
  (Tensor → Tensor → Tensor2) → ResidualStream Tensor → ResidualStream Tensor2.
Variable geodesic_distance js_divergence : Tensor → Tensor → Tensor2.

(** Lines 191-196 and 200-201: the model and the tokenizer are loaded by
    name when they are not given. *)
Definition load_model (model_or_name : model_arg) : M Model :=
  match model_or_name with
  | AModel m => mret m
  | AName s => lift (AutoModelForCausalLM_from_pretrained s)
  | AnythingElse =>
      raise (ValueError "model_or_name must be a model or a model name")
  end.

Definition load_tokenizer (model : Model) (tokenizer : option Tokenizer)
  : M Tokenizer :=
  match tokenizer with
  | Some t => mret t
  | None => lift (AutoTokenizer_from_pretrained (name_or_path model))
  end.

(** [_run_inference], lines 182-221.  A batch holds one sequence, so
    [input_ids] is the list of its token ids; moving it to the model's
    device does not change it. *)
Definition _run_inference (model_or_name : model_arg)
  (input_ids : option (list nat)) (text : option string)
  (tokenizer : option Tokenizer) (sublayers : bool)
  (start_pos : Z) (end_pos : option Z)
  : M (Model * list string * Outputs * ResidualStream Tensor) :=
  model ← load_model model_or_name;
  tokenizer ← load_tokenizer model tokenizer;
  input_ids ← match text with
              | Some t => mret (encode tokenizer t)
              | None =>
                  match input_ids with
                  | None => raise (ValueError "Either text or input_ids must be provided")
                  | Some ids => mret ids
                  end
              end;
  '(stream, out) ← record_residual_stream model sublayers
                     (call_model model input_ids);
  let tokens := convert_ids_to_tokens tokenizer input_ids in
  if (0 <? start_pos)%Z
  then mret (model, py_slice start_pos end_pos tokens,
             {| logits := slice_positions start_pos end_pos out |},
             smap (slice_positions start_pos end_pos) stream)
  else mret (model, tokens, {| logits := out |}, stream).

(** [_plot_stream], lines 224-248: the rows kept by the stride, turned
    upside down, and their labels. *)
Definition _plot_stream (color_stream : ResidualStream (list R))
  (text_stream : ResidualStream (list string)) (x_labels : list string)
  (colorbar_label : string) (fmt : string) (layer_stride : Z)
  (vmax : option R) : M unit :=
  color_matrix ← lift (py_step layer_stride (tensors color_stream));
  text_matrix ← lift (py_step layer_stride (tensors text_stream));
  let y_labels := labels color_stream in
  _ ← draw (Subplots (2 * Z.of_nat (List.length x_labels))
                     (Z.of_nat (List.length color_stream) `div` (2 * layer_stride)));
  yticks ← lift (py_step (- layer_stride) y_labels);
  draw (DrawHeatmap
          {| data := reverse color_matrix;
             annot := reverse text_matrix;
             cbar_label := if bool_decide (colorbar_label = EmptyString)
                           then None else Some colorbar_label;
             fmt := fmt;
             vmax := vmax;
             xticklabels := x_labels;
             yticklabels := yticks |}).

(** Lines 39-76 of [plot_logit_lens]: inference, the residual means, the
    lens, the top tokens and the colour scale.  Line 70 looks the
    tokenizer up in the function's own argument, not in the one
    [_run_inference] loaded. *)
Definition decode_stage (a : LensArgs) : M Decoded :=
  '(model, tokens, outputs, stream) ←
     _run_inference (model_or_name a) (input_ids a) (text a) (tokenizer a)
                    (sublayers a) (start_pos a) (end_pos a);
  stream ← lift (match residual_means a with
                 | Some means => with_residual_means stream means
                 | None => Ok stream
                 end);
  hidden_lps ← lift (match tuned_lens a with
                     | Some lens => Ok (smap log_softmax (transform lens stream))
                     | None =>
                         let E := get_output_embeddings model in
                         ln_f ← get_final_layer_norm model;
                         if is_LayerNorm ln_f then
                           layers ← get_transformer_layers model;
                           smapM (decode_fn layers E (norm_apply ln_f)
                                            (extra_decoder_layers a)) stream
                         else Raise AssertionError
                     end);
  let top_tokens := smap argmax_tokens hidden_lps in
  top_strings ← lift (match tokenizer a with
                      | Some t => Ok (smap (convert_ids_to_tokens t) top_tokens)
                      | None => Raise (AttributeError "convert_ids_to_tokens")
                      end);
  let top_strings :=
    smap (map (λ t, str_replace t (whitespace_token a) (whitespace_replacement a)))
         top_strings in
  max_color ← lift (if bool_decide (vocab_size model = 0)
                    then Raise (ValueError "math domain error")
                    else Ok (ln (INR (vocab_size model))));
  mret {| the_model := model; tokens := tokens; outputs := outputs;
          hidden_lps := hidden_lps; top_strings := top_strings;
          max_color := max_color |}.

(** Lines 77-95: the statistics of the chosen metric, the annotation
    stream and the top of the colour scale. *)
Definition metric_stats (metric : string) (d : Decoded)
  : result (ResidualStream Tensor2 * ResidualStream (list string) * option R) :=
  if bool_decide (metric = "ce"%string) then Raise NotImplementedError
  else if bool_decide (metric = "entropy"%string) then
    Ok (smap entropy_fn (hidden_lps d), top_strings d, Some (max_color d))
  else if bool_decide (metric = "geodesic"%string) then
    Ok (pairwise_map geodesic_distance (hidden_lps d),
        without_embeddings (top_strings d), None)
  else if bool_decide (metric = "js"%string) then
    Ok (pairwise_map js_divergence (hidden_lps d),
        without_embeddings (top_strings d), None)
  else if bool_decide (metric = "kl"%string) then
    let log_probs := log_softmax (logits (outputs d)) in
    Ok (smap (kl_fn log_probs) (hidden_lps d), top_strings d, Some (max_color d))
  else Raise (ValueError ("Unknown metric: " +:+ metric)).

(** [x.squeeze().cpu()] on the statistics of a batch of one sequence *)
Definition squeeze (x : Tensor2) : list R := concat x.

(** [plot_logit_lens], lines 21-108. *)
Definition plot_logit_lens (a : LensArgs) : M unit :=
  d ← decode_stage a;
  '(stats, top_strings, max_color) ← lift (metric_stats (metric a) d);
  _ ← _plot_stream (smap squeeze stats) top_strings
        (map (λ t, str_replace t (whitespace_token a) (whitespace_replacement a))
             (tokens d))
        (metric a +:+ " (nats)") EmptyString (layer_stride a) max_color;
  let name := match tuned_lens a with None => "Logit" | Some _ => "Tuned" end in
  draw (Title (name +:+ " lens (" +:+ name_or_path (the_model d) +:+ ")")).

End Collaborators.

End Plotting.

(** ** A small model to run the definitions on *)

Module Toy.
Import Torch Stream Recorder Plotting.

(** Two layers over a two-dimensional hidden state; every block is the
    identity and the logits are the last hidden state. *)
Definition hidden (input_ids : list nat) : Tensor :=
  [map (λ _ : nat, [0%R; 0%R]) input_ids].

Definition block : Block := λ x, (x, []).

Definition model : Model :=
  {| name_or_path := "toy";
     vocab_size := 2;
     forward := λ ids, ([("layer0"%string, hidden ids); ("layer1"%string, hidden ids)],
                        Ok (hidden ids));
     capture_points := λ _, ["layer0"; "layer1"]%string;
     get_output_embeddings := λ x, x;
     get_final_layer_norm := Ok {| is_LayerNorm := true; norm_apply := λ x, x |};
     get_transformer_layers := Ok [block; block] |}.

(** The same model with a second layer that fails. *)
Definition broken_model : Model :=
  {| name_or_path := "broken";
     vocab_size := 2;
     forward := λ ids, ([("layer0"%string, hidden ids)],
                        Raise (ForeignError "RuntimeError"));
     capture_points := λ _, ["layer0"; "layer1"]%string;
     get_output_embeddings := λ x, x;
     get_final_layer_norm := Ok {| is_LayerNorm := true; norm_apply := λ x, x |};
     get_transformer_layers := Ok [block; block] |}.

Definition chars : Tokenizer := Data.char_tokenizer.

Definition nothing_pretrained {A} (name : string) : result A :=
  Raise (ForeignError "OSError").

Definition argmax_tokens (x : Tensor) : list nat :=
  match x with row :: _ => map (λ _ : list R, 0) row | [] => [] end.

Definition str_replace (t old new : string) : string := t.

Definition pairwise_map (f : Tensor → Tensor → Tensor2)
  (s : ResidualStream Tensor) : ResidualStream Tensor2 :=
  match s with
  | [] => []
  | _ :: s' => zip_with (λ a b : string * Tensor, (b.1, f a.2 b.2)) s s'
  end.

Definition distance (x y : Tensor) : Tensor2 := t_sum_last (t_sub x y).

Definition world : World :=
  {| hooks := []; recordings := ∅; fresh := 0; figure := [] |}.

Definition args (metric : string) : LensArgs :=
  {| model_or_name := AModel model;
     input_ids := None;
     extra_decoder_layers := 0;
     layer_stride := 1;
     metric := metric;
     residual_means := None;
     sublayers := false;
     start_pos := 0;
     end_pos := None;
     text := Some "ab"%string;
     tuned_lens := None;
     tokenizer := Some chars;
     whitespace_token := "_";
     whitespace_replacement := " " |}.

(** A store with four tensors, two of a stream and two of its means. *)
Definition one : Tensor := [[[1%R]]].
Definition ones_store : gmap nat Tensor :=
  list_to_map [(0, one); (1, one); (2, one); (3, one)].
Definition two_entries : ResidualStream nat :=
  [("layer0"%string, 0); ("layer1"%string, 1)].

(** Means for the last entry only. *)
Definition last_mean : ResidualStream nat := [("layer1"%string, 3)].

(** A loader that knows one tokenizer, a lens that changes nothing, and a
    call that leaves the tokenizer out. *)
Definition load_chars (name : string) : result Tokenizer := Ok chars.
Definition lens : TunedLens := {| transform := λ s, s |}.
Definition args_without_tokenizer : LensArgs :=
  {| model_or_name := AModel model;
     input_ids := None;
     extra_decoder_layers := 0;
     layer_stride := 1;
     metric := "entropy";
     residual_means := None;
     sublayers := false;
     start_pos := 0;
     end_pos := None;
     text := Some "ab"%string;
     tuned_lens := Some lens;
     tokenizer := None;
     whitespace_token := "_";
     whitespace_replacement := " " |}.

(** The call of [args] with a stride of its own. *)
Definition args_with_stride (layer_stride : Z) : LensArgs :=
  {| model_or_name := AModel model;
     input_ids := None;
     extra_decoder_layers := 0;
     layer_stride := layer_stride;
     metric := "entropy";
     residual_means := None;
     sublayers := false;
     start_pos := 0;
     end_pos := None;
     text := Some "ab"%string;
     tuned_lens := None;
     tokenizer := Some chars;
     whitespace_token := "_";
     whitespace_replacement := " " |}.

Definition run_inference :=
  _run_inference nothing_pretrained nothing_pretrained.
Definition decode := decode_stage nothing_pretrained nothing_pretrained
                                  argmax_tokens str_replace.
Definition plot := plot_logit_lens nothing_pretrained nothing_pretrained
                     argmax_tokens str_replace pairwise_map distance distance.

End Toy.

(** * Verified properties *)

(** ** Fallible traversals *)


Lemma mapM_total {A B} (f : A → B) l :
  mapM (λ x, Ok (f x)) l = Ok (map f l).
Proof. induction l as [|x l IH]; cbn; [done|]. by rewrite IH. Qed.


(** ** data.py: the columns of a dataset *)

Module DataFacts.
Import Data.

Lemma forallb_columns (columns : list string) (ls : list (list string)) :
  forallb (λ cols, bool_decide (cols = columns)) ls = true ↔
  Forall (λ cols, cols = columns) ls.
Proof.
  induction ls as [|c ls IH]; cbn.
  - split; [constructor|done].
  - rewrite andb_true_iff, IH, bool_decide_eq_true, Forall_cons. done.
Qed.

(** C8.  On a [DatasetDict], [get_columns_all_equal] raises the
    [ValueError] "All splits must have the same columns" as soon as two
    splits do not have the same set of columns, and returns the common
    column list when every split has that list. *)
Theorem get_columns_all_equal_splits (dd : DatasetDict) :
  ((∃ s1 s2, s1 ∈ dd ∧ s2 ∈ dd ∧
             ¬ same_column_set (column_names s1.2) (column_names s2.2)) →
   get_columns_all_equal (DD dd) =
     Raise (ValueError "All splits must have the same columns")) ∧
  (∀ cols, dd ≠ [] → (∀ s, s ∈ dd → column_names s.2 = cols) →
           get_columns_all_equal (DD dd) = Ok cols).
Proof.
  split.
  - intros (s1 & s2 & H1 & H2 & Hne). unfold get_columns_all_equal.
    destruct dd as [|s0 dd]; [by apply elem_of_nil in H1|].
    cbn [map].
    destruct (forallb _ _) eqn:Hall; [|done].
    exfalso. apply Hne.
    apply forallb_columns in Hall.
    rewrite Forall_forall in Hall.
    assert (Hin : ∀ s, s ∈ s0 :: dd → column_names s.2 = column_names s0.2).
    { intros s Hs. apply (Hall (column_names s.2)).
      change (column_names s0.2 :: map (λ kv : string * Dataset, column_names kv.2) dd)
        with (map (λ kv : string * Dataset, column_names kv.2) (s0 :: dd)).
      apply list_elem_of_In, in_map_iff. exists s. split; [done|].
      by apply list_elem_of_In. }
    rewrite (Hin s1 H1), (Hin s2 H2). done.
  - intros cols Hne Hall. unfold get_columns_all_equal.
    destruct dd as [|s0 dd]; [done|]. cbn [map].
    assert (H0 : column_names s0.2 = cols) by (apply Hall; left).
    rewrite H0.
    assert (Hf : forallb (λ c, bool_decide (c = cols))
                   (cols :: map (λ kv : string * Dataset, column_names kv.2) dd) = true).
    { apply forallb_columns. constructor; [done|].
      apply Forall_forall. intros c Hc.
      apply list_elem_of_In, in_map_iff in Hc as (s & <- & Hs).
      apply Hall. right. by apply list_elem_of_In. }
    by rewrite Hf.
Qed.

Lemma get_columns_all_equal_splits_witness :
  get_columns_all_equal (DD odd_splits) =
    Raise (ValueError "All splits must have the same columns") ∧
  get_columns_all_equal (DD two_splits) = Ok ["text"%string].
Proof.
  split.
  - apply (proj1 (get_columns_all_equal_splits odd_splits)).
    exists ("train"%string, corpus ["a"]%string),
           ("test"%string, [("label"%string, [Int 0])]).
    split; [left|]. split; [right; left|].
    intros H. specialize (H "text"%string). cbn in H.
    assert (Hin : "text"%string ∈ ["label"%string]) by (apply H; left).
    apply list_elem_of_In in Hin. cbn in Hin. destruct Hin as [Hin|[]].
    discriminate Hin.
  - apply (proj2 (get_columns_all_equal_splits two_splits)).
    + discriminate.
    + intros s Hs. apply list_elem_of_In in Hs. cbn in Hs.
      destruct Hs as [<-|[<-|[]]]; reflexivity.
Defined.

(** *** The windows of a token sequence *)


Lemma windows_concat {A} m (l : list A) : concat (windows m l) = l.
Proof.
  funelim (windows m l); cbn.
  - apply app_nil_r.
  - rewrite H. apply take_drop.
Qed.




(** *** One batch *)




(** *** Dictionaries of columns *)

Lemma getitem_app_notin {V} (d1 d2 : list (string * V)) k :
  k ∉ d1.*1 → getitem (d1 ++ d2) k = getitem d2 k.
Proof.
  induction d1 as [|[k' v] d1 IH]; intros Hk; [done|]. cbn.
  rewrite fmap_cons, not_elem_of_cons in Hk. destruct Hk as [Hne Hk].
  rewrite bool_decide_eq_false_2 by (cbn in Hne; congruence). auto.
Qed.

Lemma getitem_dict_update d out k :
  k ∈ out.*1 → getitem (dict_update d out) k = getitem out k.
Proof.
  intros Hk. unfold dict_update. apply getitem_app_notin.
  intros Hin. apply list_elem_of_fmap in Hin as (kv & -> & Hkv).
  apply list_elem_of_filter in Hkv as [Hout _]. done.
Qed.





(** *** From one batch to the whole dataset *)



Section MapFacts.
Variable split_batches : Dataset → list Dataset.



End MapFacts.



End DataFacts.

(** ** Real-valued tensors *)

Module TorchFacts.
Import Torch.

Lemma at_token_map {A B} (g : A → B) (x : list (list A)) b t :
  at_token (map (map g) x) b t = g <$> at_token x b t.
Proof.
  unfold at_token.
  change (map (map g) x) with (fmap (M:=list) (fmap (M:=list) g) x).
  rewrite list_lookup_fmap. destruct (x !! b) as [row|]; cbn; [|done].
  apply list_lookup_fmap.
Qed.

Lemma at_token_zip_with {A B C} (f : A → B → C) x y b t :
  at_token (zip_with (zip_with f) x y) b t =
    vx ← at_token x b t; vy ← at_token y b t; Some (f vx vy).
Proof.
  unfold at_token. rewrite lookup_zip_with.
  destruct (x !! b) as [rx|]; cbn; [|done].
  destruct (y !! b) as [ry|]; cbn.
  - rewrite lookup_zip_with. done.
  - by destruct (rx !! t).
Qed.

Lemma vsum_exp_ln (v : vec) :
  vsum (zip_with Rmult (map exp v) v) =
  vsum (map (λ p, p * ln p)%R (map exp v)).
Proof.
  induction v as [|a v IH]; [done|]. cbn. rewrite ln_exp. by f_equal.
Qed.

Lemma vsum_uniform (a : R) (V : nat) :
  vsum (zip_with Rmult (map exp (replicate V a)) (replicate V a)) =
  (INR V * (exp a * a))%R.
Proof.
  induction V as [|V IH].
  - cbn. lra.
  - rewrite S_INR. cbn [replicate map zip_with vsum foldr].
    fold (vsum (zip_with Rmult (map exp (replicate V a)) (replicate V a))).
    rewrite IH. lra.
Qed.

Lemma entropy_uniform (V : nat) :
  0 < V →
  (- vsum (zip_with Rmult (map exp (replicate V (- ln (INR V))))
                    (replicate V (- ln (INR V)))) = ln (INR V))%R.
Proof.
  intros HV. rewrite vsum_uniform.
  assert (Hpos : (0 < INR V)%R) by (apply lt_0_INR; lia).
  rewrite exp_Ropp, exp_ln by done. field. lra.
Qed.






End TorchFacts.

(** ** plotting.py: the lens decoder and the metrics *)

Module LensFacts.
Import Torch Stream Recorder Plotting TorchFacts.

Lemma smap_ext {A B} (f g : A → B) (s : ResidualStream A) :
  (∀ x, f x = g x) → smap f s = smap g s.
Proof.
  intros Hfg. unfold smap. apply map_ext. intros [n x]. cbn. by rewrite Hfg.
Qed.


(** *** Indexing the list of blocks *)

Lemma py_index_nat {A} (l : list A) (i : nat) (a : A) :
  l !! i = Some a → py_index l (Z.of_nat i) = Ok a.
Proof.
  intros Hi. unfold py_index.
  assert (Hneg : (Z.of_nat i <? 0)%Z = false) by (apply Z.ltb_ge; lia).
  rewrite Hneg. cbn zeta. rewrite Hneg, Nat2Z.id, Hi. done.
Qed.






(** Asked for one block more than the model has, the decoder starts at
    index -1, the last block, and then runs all of them. *)
Example decode_fn_beyond_the_blocks (b0 b1 : Block) E ln_f (x : Tensor) :
  decode_fn [b0; b1] E ln_f 3 x =
  Ok (log_softmax (E (ln_f (rerun [b1; b0; b1] x)))).
Proof. reflexivity. Qed.

Section Metrics.
Variable pairwise_map :
  (Tensor → Tensor → Tensor2) → ResidualStream Tensor → ResidualStream Tensor2.
Variable geodesic_distance js_divergence : Tensor → Tensor → Tensor2.

(** C4.  With the metric "entropy" the statistics are [entropy_fn] of every
    decoded entry; for a token whose log-probabilities are [v] its value
    is minus the sum of exp(v_i) * v_i, that is minus the sum of p * ln p
    for the probabilities p = exp(v), and it is ln V when [v] is the
    uniform distribution over V tokens. *)
Theorem entropy_metric (d : Decoded) (x : Tensor) (b t : nat) (v : vec) :
  at_token x b t = Some v →
  metric_stats pairwise_map geodesic_distance js_divergence "entropy" d =
    Ok (smap entropy_fn (hidden_lps d), top_strings d, Some (max_color d)) ∧
  at_token (entropy_fn x) b t =
    Some (- vsum (zip_with Rmult (map exp v) v))%R ∧
  at_token (entropy_fn x) b t =
    Some (- vsum (map (λ p, p * ln p) (map exp v)))%R ∧
  (∀ V, 0 < V → v = replicate V (- ln (INR V))%R →
        at_token (entropy_fn x) b t = Some (ln (INR V))).
Proof.
  intros Hv.
  assert (He : at_token (entropy_fn x) b t =
               Some (- vsum (zip_with Rmult (map exp v) v))%R).
  { unfold entropy_fn, t2_neg, t_sum_last, t_mul, t_exp, pointwise2, pointwise.
    rewrite !at_token_map, at_token_zip_with, at_token_map, Hv. done. }
  split; [done|]. split; [done|]. split.
  - by rewrite He, vsum_exp_ln.
  - intros V HV ->. rewrite He. f_equal. by apply entropy_uniform.
Qed.


End Metrics.

Lemma entropy_metric_witness :
  at_token (entropy_fn [[replicate 2 (- ln (INR 2))%R]]) 0 0 = Some (ln (INR 2)).
Proof.
  refine (proj2 (proj2 (proj2 (entropy_metric
            Toy.pairwise_map Toy.distance Toy.distance
            {| the_model := Toy.model; tokens := []; outputs := {| logits := [] |};
               hidden_lps := []; top_strings := []; max_color := 0%R |}
            [[replicate 2 (- ln (INR 2))%R]] 0 0
            (replicate 2 (- ln (INR 2))%R) _))) 2 _ _).
  - reflexivity.
  - lia.
  - reflexivity.
Defined.


End LensFacts.

(** ** plotting.py: the residual means are added in place *)

Module MeansFacts.
Import Torch Stream Recorder Plotting.

Lemma accumulate_elsewhere (states ms : list nat) (h : gmap nat Tensor) acc l :
  l ∉ states → accumulate h acc (zip states ms) !! l = h !! l.
Proof.
  revert ms h acc. induction states as [|s states IH]; intros ms h acc Hl; [done|].
  destruct ms as [|m ms]; [done|].
  apply not_elem_of_cons in Hl as [Hne Hl]. cbn.
  rewrite IH by done. by rewrite lookup_insert_ne.
Qed.







End MeansFacts.

(** ** The recorder and the shared state *)

Module RecorderFacts.
Import Torch Stream Recorder Plotting.

Lemma fire_hook_other_target c recs h id :
  target h ≠ id → fire_hook c recs h !! id = recs !! id.
Proof.
  intros Hne. unfold fire_hook. case_bool_decide; [|done].
  by rewrite lookup_insert_ne.
Qed.

Lemma fire_others c hs recs id :
  Forall (λ h, target h ≠ id) hs → foldl (fire_hook c) recs hs !! id = recs !! id.
Proof.
  intros Hhs. revert recs. induction Hhs as [|h hs Hh _ IH]; intros recs; [done|].
  cbn. rewrite IH. by apply fire_hook_other_target.
Qed.

Lemma fire_attached c (g : nat → nat) id points recs :
  NoDup points →
  foldl (fire_hook c) recs
        (imap (λ i name, {| handle := g i; hooked_module := name; target := id |})
              points) !!! id =
  recs !!! id ++ (if decide (c.1 ∈ points) then [c] else []).
Proof.
  revert g recs. induction points as [|p points IH]; intros g recs Hnd.
  - cbn. by rewrite app_nil_r.
  - apply NoDup_cons in Hnd as [Hp Hnd]. rewrite imap_cons. cbn [foldl].
    rewrite (IH (g ∘ S)) by done. unfold fire_hook. cbn.
    case_bool_decide as Hc.
    + subst p. rewrite lookup_total_insert_eq.
      rewrite decide_False by done. rewrite decide_True by left.
      by rewrite app_nil_r.
    + f_equal. destruct (decide (c.1 ∈ points)) as [Hin|Hin].
      * by rewrite decide_True by (by right).
      * rewrite decide_False; [done|].
        intros [?|?]%elem_of_cons; congruence.
Qed.

Lemma attach_target id points : Forall (λ h, target h = id) (attach id points).
Proof.
  apply Forall_forall. intros h Hh.
  apply elem_of_lookup_imap in Hh as (i & name & -> & _). done.
Qed.

Lemma attach_handles id points h :
  h ∈ attach id points → id < handle h.
Proof. intros (i & name & -> & _)%elem_of_lookup_imap. cbn. lia. Qed.

Lemma fire_calls old id points calls recs :
  Forall (λ h, target h ≠ id) old → NoDup points →
  foldl (fire (old ++ attach id points)) recs calls !!! id =
  recs !!! id ++ captured points calls.
Proof.
  intros Hold Hnd. revert recs.
  induction calls as [|c calls IH]; intros recs.
  - cbn. by rewrite app_nil_r.
  - cbn [foldl]. rewrite IH. unfold fire at 1. rewrite foldl_app.
    unfold attach. rewrite fire_attached by done.
    rewrite (lookup_total_alt (foldl _ _ old)), fire_others by done.
    rewrite <- lookup_total_alt, <- app_assoc. f_equal.
    unfold captured. destruct (decide (c.1 ∈ points)).
    + by rewrite filter_cons_True.
    + by rewrite filter_cons_False.
Qed.

Lemma detach_own (hs l : list Hook) :
  (∀ h, h ∈ l → handle h ∈ handle <$> hs) →
  filter (λ h, handle h ∉ handle <$> hs) l = [].
Proof.
  induction l as [|h l IH]; intros Hl; [done|].
  rewrite filter_cons_False by (intros Hn; apply Hn, Hl; left).
  apply IH. intros h' Hh'. apply Hl. by right.
Qed.

Lemma detach_attached old id points :
  Forall (λ h, handle h < id) old →
  detach (attach id points) (old ++ attach id points) = old.
Proof.
  intros Hold. unfold detach. rewrite filter_app.
  assert (Hkeep : filter (λ h, handle h ∉ handle <$> attach id points) old = old).
  { induction Hold as [|h old Hh _ IH]; [done|].
    rewrite filter_cons_True, IH; [done|].
    intros (h' & Heq & Hin%attach_handles)%list_elem_of_fmap. lia. }
  assert (Hdrop : filter (λ h, handle h ∉ handle <$> attach id points)
                         (attach id points) = []).
  { apply detach_own. intros h Hh. apply list_elem_of_fmap. eauto. }
  by rewrite Hkeep, Hdrop, app_nil_r.
Qed.

(** What one recorded forward pass leaves behind. *)
Lemma record_call (model : Model) sublayers ids (w : World) :
  fresh_above w → NoDup (capture_points model sublayers) →
  record_residual_stream model sublayers (call_model model ids) w =
  ({| hooks := hooks w;
      recordings :=
        foldl (fire (hooks w ++ attach (fresh w) (capture_points model sublayers)))
              (<[fresh w := []]> (recordings w)) (forward model ids).1;
      fresh := fresh w + 1 + List.length (attach (fresh w) (capture_points model sublayers));
      figure := figure w |},
   match (forward model ids).2 with
   | Ok out => Ok (captured (capture_points model sublayers) (forward model ids).1, out)
   | Raise e => Raise e
   end).
Proof.
  intros Hw Hnd. unfold record_residual_stream, call_model.
  destruct (forward model ids) as [calls r].
  cbn [hooks recordings fresh figure fst snd].
  assert (Hold : Forall (λ h, handle h < fresh w) (hooks w)).
  { eapply Forall_impl; [exact Hw|]. cbn. intros h [? ?]. done. }
  assert (Hold' : Forall (λ h, target h ≠ fresh w) (hooks w)).
  { eapply Forall_impl; [exact Hw|]. cbn. intros h [? ?]. lia. }
  rewrite detach_attached by done.
  rewrite fire_calls by done.
  rewrite lookup_total_insert_eq. done.
Qed.

Lemma record_call_fresh (model : Model) sublayers ids (w : World) :
  fresh_above w → NoDup (capture_points model sublayers) →
  fresh_above (record_residual_stream model sublayers (call_model model ids) w).1.
Proof.
  intros Hw Hnd. rewrite record_call by done. unfold fresh_above in *. cbn.
  eapply Forall_impl; [exact Hw|]. cbn. lia.
Qed.

Lemma captured_all points (calls : list (string * Tensor)) :
  calls.*1 = points → labels (captured points calls) = points.
Proof.
  intros <-. unfold captured, labels. f_equal.
  assert (∀ l : list (string * Tensor),
            (∀ c, c ∈ l → c.1 ∈ calls.*1) → filter (λ c, c.1 ∈ calls.*1) l = l) as H.
  { induction l as [|c l IH]; intros Hl; [done|].
    rewrite filter_cons_True by (apply Hl; left).
    f_equal. apply IH. intros c' Hc'. apply Hl. by right. }
  apply H. intros c Hc. apply list_elem_of_fmap. eauto.
Qed.

End RecorderFacts.

(** ** plotting.py: inference and the choice of the metric *)

Module PlotFacts.
Import Torch Stream Recorder Plotting RecorderFacts.

Lemma keeps_ret {A} (a : A) : keeps_figure (mret a).
Proof. by intros w. Qed.

Lemma keeps_lift {A} (r : result A) : keeps_figure (lift r).
Proof. by intros w. Qed.

Lemma keeps_raise {A} (e : exn) : keeps_figure (raise (A:=A) e).
Proof. by intros w. Qed.

Lemma keeps_bind {A B} (m : M A) (k : A → M B) :
  keeps_figure m → (∀ a, keeps_figure (k a)) → keeps_figure (m ≫= k).
Proof.
  intros Hm Hk w. unfold mbind, M_bind. specialize (Hm w).
  destruct (m w) as [w1 [a|e]]; cbn in *; [|done].
  by rewrite Hk.
Qed.

Lemma keeps_record_call (model : Model) sublayers ids :
  keeps_figure (record_residual_stream model sublayers (call_model model ids)).
Proof.
  intros w. unfold record_residual_stream, call_model.
  by destruct (forward model ids).
Qed.

Ltac keeps :=
  repeat first
    [ apply keeps_ret | apply keeps_lift | apply keeps_raise
    | apply keeps_record_call
    | apply keeps_bind; [|intros ?]
    | match goal with
      | |- keeps_figure (match ?x with _ => _ end) => destruct x
      end ].

Section Pipeline.
Variable AutoModelForCausalLM_from_pretrained : string → result Model.
Variable AutoTokenizer_from_pretrained : string → result Tokenizer.
Variable argmax_tokens : Tensor → list nat.
Variable str_replace : string → string → string → string.
Variable pairwise_map :
  (Tensor → Tensor → Tensor2) → ResidualStream Tensor → ResidualStream Tensor2.
Variable geodesic_distance js_divergence : Tensor → Tensor → Tensor2.

Abbreviation run_inference :=
  (_run_inference AutoModelForCausalLM_from_pretrained
                  AutoTokenizer_from_pretrained).
Abbreviation decode :=
  (decode_stage AutoModelForCausalLM_from_pretrained
                AutoTokenizer_from_pretrained argmax_tokens str_replace).
Abbreviation stats := (metric_stats pairwise_map geodesic_distance js_divergence).
Abbreviation plot :=
  (plot_logit_lens AutoModelForCausalLM_from_pretrained
                   AutoTokenizer_from_pretrained argmax_tokens str_replace
                   pairwise_map geodesic_distance js_divergence).

Lemma load_model_world mo w :
  (load_model AutoModelForCausalLM_from_pretrained mo w).1 = w.
Proof. by destruct mo. Qed.

Lemma load_tokenizer_world model tok w :
  (load_tokenizer AutoTokenizer_from_pretrained model tok w).1 = w.
Proof. by destruct tok. Qed.

Lemma run_inference_keeps mo ids text tok sub sp ep :
  keeps_figure (run_inference mo ids text tok sub sp ep).
Proof.
  unfold _run_inference, load_model, load_tokenizer. keeps.
Qed.

Lemma decode_keeps a : keeps_figure (decode a).
Proof.
  unfold decode_stage. apply keeps_bind; [apply run_inference_keeps|].
  intros [[[model toks] out] stream]. keeps.
Qed.

Lemma plot_unfold a w :
  plot a w =
  match decode a w with
  | (w1, Ok d) =>
      match stats (metric a) d with
      | Ok (st, top, mc) =>
          (_ ← _plot_stream (smap squeeze st) top
                 (map (λ t, str_replace t (whitespace_token a)
                                        (whitespace_replacement a)) (tokens d))
                 (metric a +:+ " (nats)") EmptyString (layer_stride a) mc;
           draw (Title (match tuned_lens a with
                        | None => "Logit" | Some _ => "Tuned" end
                        +:+ " lens (" +:+ name_or_path (the_model d) +:+ ")"))) w1
      | Raise e => (w1, Raise e)
      end
  | (w1, Raise e) => (w1, Raise e)
  end.
Proof.
  unfold plot_logit_lens, mbind at 1, M_bind at 1.
  destruct (decode a w) as [w1 [d|e]]; [|done].
  unfold mbind at 1, M_bind at 1, lift.
  by destruct (stats (metric a) d) as [[[st top] mc]|e].
Qed.

Lemma metric_stats_unknown metric d :
  metric ∉ declared_metrics →
  stats metric d = Raise (ValueError ("Unknown metric: " +:+ metric)).
Proof.
  intros Hm. unfold metric_stats.
  repeat (rewrite bool_decide_eq_false_2;
          [|intros ->; apply Hm; unfold declared_metrics;
            rewrite !elem_of_cons; tauto]).
  done.
Qed.

(** C3.  A metric name outside the declared ones never draws anything and
    never succeeds: when the stages before the choice of the metric
    complete, no statistics are built and the call ends with the
    [ValueError] "Unknown metric: ..."; otherwise it ends with the
    exception of the stage that failed. *)
Theorem unknown_metric_fails (a : LensArgs) (w : World) :
  metric a ∉ declared_metrics →
  figure (plot a w).1 = figure w ∧
  is_ok (plot a w).2 = false ∧
  (∀ w1 d, decode a w = (w1, Ok d) →
     stats (metric a) d = Raise (ValueError ("Unknown metric: " +:+ metric a)) ∧
     plot a w = (w1, Raise (ValueError ("Unknown metric: " +:+ metric a)))) ∧
  (∀ w1 e, decode a w = (w1, Raise e) → plot a w = (w1, Raise e)).
Proof.
  intros Hm. pose proof (decode_keeps a w) as Hfig.
  rewrite plot_unfold.
  destruct (decode a w) as [w1 [d|e]]; cbn in Hfig.
  - rewrite metric_stats_unknown by done. cbn.
    split; [done|]. split; [done|]. split.
    + intros w' d' [= <- <-]. split; [by apply metric_stats_unknown|done].
    + intros w' e' [=].
  - cbn. split; [done|]. split; [done|]. split.
    + intros w' d' [=].
    + by intros w' e' [= <- <-].
Qed.

(** C10.  "ce" is among the declared metrics, and yet a call with it never
    draws anything and never succeeds: when the stages before the choice
    of the metric complete, no statistics are built and the call ends with
    [NotImplementedError]. *)
Theorem ce_not_implemented (a : LensArgs) (w : World) :
  metric a = "ce"%string →
  "ce"%string ∈ declared_metrics ∧
  figure (plot a w).1 = figure w ∧
  is_ok (plot a w).2 = false ∧
  (∀ w1 d, decode a w = (w1, Ok d) →
     stats (metric a) d = Raise NotImplementedError ∧
     plot a w = (w1, Raise NotImplementedError)).
Proof.
  intros Hm. pose proof (decode_keeps a w) as Hfig.
  split; [left|]. rewrite plot_unfold, Hm.
  destruct (decode a w) as [w1 [d|e]]; cbn in Hfig.
  - cbn. split; [done|]. split; [done|].
    intros w' d' [= <- <-]. split; reflexivity.
  - cbn. split; [done|]. split; [done|]. intros w' d' [=].
Qed.

(** C1, as amended.  With neither [text] nor [input_ids] the call fails,
    and once the model and the tokenizer are there it fails with the
    [ValueError] "Either text or input_ids must be provided", before any
    forward pass.  With both, the call is the call with [text] alone: the
    given [input_ids] are not looked at. *)
Theorem run_inference_inputs mo tok sub sp ep (w : World) :
  is_ok (run_inference mo None None tok sub sp ep w).2 = false ∧
  (∀ model tk,
     load_model AutoModelForCausalLM_from_pretrained mo w = (w, Ok model) →
     load_tokenizer AutoTokenizer_from_pretrained model tok w = (w, Ok tk) →
     run_inference mo None None tok sub sp ep w =
       (w, Raise (ValueError "Either text or input_ids must be provided"))) ∧
  (∀ ids t, run_inference mo (Some ids) (Some t) tok sub sp ep w =
            run_inference mo None (Some t) tok sub sp ep w).
Proof.
  assert (Hcases : ∀ model tk,
     load_model AutoModelForCausalLM_from_pretrained mo w = (w, Ok model) →
     load_tokenizer AutoTokenizer_from_pretrained model tok w = (w, Ok tk) →
     run_inference mo None None tok sub sp ep w =
       (w, Raise (ValueError "Either text or input_ids must be provided"))).
  { intros model tk Hmodel Htok. unfold _run_inference.
    unfold mbind at 1, M_bind at 1. rewrite Hmodel.
    unfold mbind at 1, M_bind at 1. rewrite Htok. done. }
  split; [|split; [exact Hcases|done]].
  pose proof (load_model_world mo w) as Hw1.
  destruct (load_model AutoModelForCausalLM_from_pretrained mo w)
    as [w1 [model|e]] eqn:Hmodel; cbn in Hw1; subst w1.
  - pose proof (load_tokenizer_world model tok w) as Hw2.
    destruct (load_tokenizer AutoTokenizer_from_pretrained model tok w)
      as [w2 [tk|e]] eqn:Htok; cbn in Hw2; subst w2.
    + by rewrite (Hcases model tk).
    + unfold _run_inference. unfold mbind at 1, M_bind at 1. rewrite Hmodel.
      unfold mbind at 1, M_bind at 1. by rewrite Htok.
  - unfold _run_inference. unfold mbind at 1, M_bind at 1. by rewrite Hmodel.
Qed.

Lemma run_inference_hooks model ids text tok sub sp ep (w : World) :
  fresh_above w → NoDup (capture_points model sub) →
  hooks (run_inference (AModel model) ids text tok sub sp ep w).1 = hooks w.
Proof.
  intros Hw Hnd. unfold _run_inference.
  unfold mbind at 1, M_bind at 1. cbn [load_model mret M_ret].
  unfold mbind at 1, M_bind at 1.
  pose proof (load_tokenizer_world model tok w) as Hw2.
  destruct (load_tokenizer AutoTokenizer_from_pretrained model tok w)
    as [w2 [tk|e]]; cbn in Hw2; subst w2; [|done].
  unfold mbind at 1, M_bind at 1.
  assert (Hrec : ∀ input,
    hooks ((record_residual_stream model sub (call_model model input) ≫=
            (λ '(stream, out),
               if (0 <? sp)%Z
               then mret (model, py_slice sp ep (convert_ids_to_tokens tk input),
                          {| logits := slice_positions sp ep out |},
                          smap (slice_positions sp ep) stream)
               else mret (model, convert_ids_to_tokens tk input,
                          {| logits := out |}, stream))) w).1 = hooks w).
  { intros input. unfold mbind, M_bind. rewrite record_call by done.
    destruct (forward model input).2; [|done].
    by destruct (0 <? sp)%Z. }
  destruct text as [t|]; [apply Hrec|].
  destruct ids as [i|]; [apply Hrec|done].
Qed.

End Pipeline.

(** C9.  A recording leaves the hooks of the model as it found them,
    whether the forward pass returns or raises, and an exception of the
    forward pass is the exception of the recording.  A second recording
    on the same model therefore sees only its own capture points: its
    stream holds the calls of the capture points, once each.  The same
    holds of the recording made by [_run_inference]. *)
Theorem recorder_cleanup (model : Model) (sublayers : bool)
  (ids ids' : list nat) (w : World) :
  fresh_above w → NoDup (capture_points model sublayers) →
  let first := record_residual_stream model sublayers (call_model model ids) w in
  let second :=
    record_residual_stream model sublayers (call_model model ids') first.1 in
  hooks first.1 = hooks w ∧
  (∀ e, (forward model ids).2 = Raise e → first.2 = Raise e) ∧
  hooks second.1 = hooks w ∧
  (∀ out, (forward model ids').2 = Ok out →
     second.2 = Ok (captured (capture_points model sublayers)
                             (forward model ids').1, out)) ∧
  ((forward model ids').1.*1 = capture_points model sublayers →
   ∀ s out, second.2 = Ok (s, out) → labels s = capture_points model sublayers) ∧
  (∀ load_m load_t input text tok sp ep,
     hooks (_run_inference load_m load_t (AModel model) input text tok
                           sublayers sp ep w).1 = hooks w).
Proof.
  intros Hw Hnd first second.
  pose proof (record_call_fresh model sublayers ids w Hw Hnd) as Hw1.
  fold first in Hw1.
  assert (H1 : hooks first.1 = hooks w).
  { unfold first. by rewrite record_call. }
  assert (H2 : second.2 =
               match (forward model ids').2 with
               | Ok out => Ok (captured (capture_points model sublayers)
                                        (forward model ids').1, out)
               | Raise e => Raise e
               end).
  { unfold second. by rewrite record_call. }
  split; [done|]. split.
  { intros e He. unfold first. rewrite record_call by done. cbn. by rewrite He. }
  split.
  { unfold second. rewrite record_call by done. done. }
  split.
  { intros out Hout. by rewrite H2, Hout. }
  split.
  { intros Hcalls s out Hs. rewrite H2 in Hs.
    destruct (forward model ids').2; [|discriminate].
    injection Hs as <- <-. by apply captured_all. }
  intros. by apply run_inference_hooks.
Qed.

Lemma recorder_cleanup_witness :
  hooks (record_residual_stream Toy.broken_model false
           (call_model Toy.broken_model [1]) Toy.world).1 = [] ∧
  (record_residual_stream Toy.broken_model false
     (call_model Toy.broken_model [1]) Toy.world).2 =
    Raise (ForeignError "RuntimeError").
Proof.
  assert (Hw : fresh_above Toy.world) by constructor.
  assert (Hnd : NoDup (capture_points Toy.broken_model false))
    by (apply (bool_decide_unpack _); vm_compute; exact I).
  destruct (recorder_cleanup Toy.broken_model false [1] [2] Toy.world Hw Hnd)
    as (Hhooks & Hraise & _).
  split; [exact Hhooks|]. apply Hraise. reflexivity.
Defined.

Lemma unknown_metric_fails_witness :
  Toy.plot (Toy.args "bogus") Toy.world =
    ((Toy.decode (Toy.args "bogus") Toy.world).1,
     Raise (ValueError "Unknown metric: bogus")).
Proof.
  assert (Hm : metric (Toy.args "bogus") ∉ declared_metrics).
  { intros Hin. apply list_elem_of_In in Hin. cbn in Hin.
    repeat (destruct Hin as [Hin|Hin]; [discriminate Hin|]). exact Hin. }
  destruct (unknown_metric_fails Toy.nothing_pretrained Toy.nothing_pretrained
              Toy.argmax_tokens Toy.str_replace Toy.pairwise_map Toy.distance
              Toy.distance (Toy.args "bogus") Toy.world Hm)
    as (_ & _ & Hok & _).
  destruct (Toy.decode (Toy.args "bogus") Toy.world) as [w1 [d|e]] eqn:Hd.
  - exact (proj2 (Hok w1 d Hd)).
  - exfalso. vm_compute in Hd. discriminate Hd.
Defined.

Lemma ce_not_implemented_witness :
  Toy.plot (Toy.args "ce") Toy.world =
    ((Toy.decode (Toy.args "ce") Toy.world).1, Raise NotImplementedError).
Proof.
  destruct (ce_not_implemented Toy.nothing_pretrained Toy.nothing_pretrained
              Toy.argmax_tokens Toy.str_replace Toy.pairwise_map Toy.distance
              Toy.distance (Toy.args "ce") Toy.world eq_refl)
    as (_ & _ & _ & Hok).
  destruct (Toy.decode (Toy.args "ce") Toy.world) as [w1 [d|e]] eqn:Hd.
  - exact (proj2 (Hok w1 d Hd)).
  - exfalso. vm_compute in Hd. discriminate Hd.
Defined.

Lemma run_inference_inputs_witness :
  Toy.run_inference (AModel Toy.model) None None (Some Toy.chars) false 0 None
                    Toy.world =
    (Toy.world, Raise (ValueError "Either text or input_ids must be provided")).
Proof.
  apply (proj1 (proj2 (run_inference_inputs Toy.nothing_pretrained
                         Toy.nothing_pretrained (AModel Toy.model)
                         (Some Toy.chars) false 0 None Toy.world))
           Toy.model Toy.chars); reflexivity.
Defined.

(** C1, as stated, fails: a call with both [text] and [input_ids]
    succeeds. *)
Lemma both_inputs_accepted :
  ¬ (∀ mo ids t tok sub sp ep w,
       is_ok (Toy.run_inference mo (Some ids) (Some t) tok sub sp ep w).2 = false).
Proof.
  intros H.
  specialize (H (AModel Toy.model) [1] "ab"%string (Some Toy.chars) false
                0%Z None Toy.world).
  vm_compute in H. discriminate H.
Qed.

End PlotFacts.

(** ** data.py: what a batch keeps, when the chunking returns, and the ratio *)

Module DataMore.
Import Data DataFacts.

Lemma mapM_Forall2_Ok {A B} (f : A → result B) l ys :
  Forall2 (λ x y, f x = Ok y) l ys → mapM f l = Ok ys.
Proof.
  induction 1 as [|x y l ys Hxy _ IH]; cbn; [done|].
  rewrite Hxy. cbn. rewrite IH. done.
Qed.


Lemma getitem_missing {V} (x : list (string * V)) key :
  key ∉ x.*1 → getitem x key = Raise (KeyError key).
Proof.
  induction x as [|[k v] x IH]; intros Hk; [done|]. cbn.
  rewrite fmap_cons, not_elem_of_cons in Hk. destruct Hk as [Hne Hk].
  rewrite bool_decide_eq_false_2 by (cbn in Hne; congruence). auto.
Qed.

Lemma getitem_present {V} (x : list (string * V)) key :
  key ∈ x.*1 → ∃ v, getitem x key = Ok v.
Proof.
  induction x as [|[k v] x IH]; intros Hk; [by apply elem_of_nil in Hk|]. cbn.
  case_bool_decide; [eauto|].
  apply IH. rewrite fmap_cons, elem_of_cons in Hk. cbn in Hk.
  destruct Hk as [->|Hk]; done.
Qed.

Lemma getitem_map_key_Ok {V W} (g : string → W) (d : list (string * V)) k :
  k ∈ d.*1 → getitem (map (λ kv : string * V, (kv.1, g kv.1)) d) k = Ok (g k).
Proof.
  induction d as [|[k' v'] d IH]; intros Hk; [by apply elem_of_nil in Hk|]. cbn.
  case_bool_decide as Hkk; [by rewrite Hkk|].
  apply IH. rewrite fmap_cons, elem_of_cons in Hk. cbn in Hk.
  destruct Hk as [->|Hk]; done.
Qed.

(** X1.  The three outcomes of [get_columns_all_equal]: a [Dataset] gives
    its columns; a [DatasetDict] gives the columns of its splits when it
    has a split and every split has the same column list, raises
    [StopIteration] when it has no split, and raises the [ValueError] when
    some split's column list differs from the first split's. *)
Theorem get_columns_all_equal_cases (dataset : data) :
  match dataset, get_columns_all_equal dataset with
  | DS d, r => r = Ok (column_names d)
  | DD dd, Ok cols => dd ≠ [] ∧ ∀ s, s ∈ dd → column_names s.2 = cols
  | DD dd, Raise e =>
      (dd = [] ∧ e = StopIteration) ∨
      (e = ValueError "All splits must have the same columns" ∧
       ∃ s0 s, head dd = Some s0 ∧ s ∈ dd ∧
               column_names s.2 ≠ column_names s0.2)
  end.
Proof.
  destruct dataset as [d|dd]; [done|].
  unfold get_columns_all_equal. destruct dd as [|s0 dd]; [by left|].
  cbn [map]. destruct (forallb _ _) eqn:Hall; cbn.
  - split; [done|]. apply forallb_columns in Hall.
    change (column_names s0.2 :: map (λ kv : string * Dataset, column_names kv.2) dd)
      with ((λ kv : string * Dataset, column_names kv.2) <$> (s0 :: dd)) in Hall.
    apply Forall_fmap in Hall. rewrite Forall_forall in Hall. exact Hall.
  - right. split; [done|]. exists s0.
    assert (Hnot : ¬ Forall (λ kv : string * Dataset,
                     column_names kv.2 = column_names s0.2) (s0 :: dd)).
    { intros HF.
      assert (HF' : Forall (λ cols, cols = column_names s0.2)
                 ((λ kv : string * Dataset, column_names kv.2) <$> (s0 :: dd)))
        by (by apply Forall_fmap).
      apply forallb_columns in HF'.
      change ((λ kv : string * Dataset, column_names kv.2) <$> s0 :: dd)
        with (column_names s0.2 :: map (λ kv : string * Dataset, column_names kv.2) dd)
        in HF'.
      rewrite HF' in Hall. discriminate Hall. }
    apply not_Forall_Exists in Hnot; [|solve_decision].
    apply Exists_exists in Hnot as (s & Hs & Hne). eauto.
Qed.

(** *** Counting the windows *)








(** *** When the chunking returns *)

Section Returns.
Variable split_batches : Dataset → list Dataset.


Lemma column_dict_update kept out k :
  k ∈ out.*1 → column (dict_update kept out) k = column out k.
Proof. intros Hk. unfold column. by rewrite getitem_dict_update. Qed.


(** X5.  When the first batch has no column named [text_key], the whole
    call raises [KeyError] for that key. *)
Theorem chunk_and_tokenize_missing_text (d : Dataset) tokenizer format text_key b rest :
  split_batches d = b :: rest → text_key ∉ column_names b →
  chunk_and_tokenize split_batches (DS d) tokenizer format text_key =
    Raise (KeyError text_key).
Proof.
  intros Hsplit Hkey.
  assert (Hfn : _tokenize_fn b tokenizer text_key = Raise (KeyError text_key)).
  { unfold _tokenize_fn. by rewrite (getitem_missing b text_key Hkey). }
  unfold chunk_and_tokenize.
  cbn [get_columns_all_equal mbind result_bind].
  unfold data_map, Dataset_map. rewrite Hsplit. cbn [mapM].
  rewrite Hfn. done.
Qed.

End Returns.


Lemma chunk_and_tokenize_missing_text_witness :
  chunk_and_tokenize one_batch (DS (corpus ["abc"]%string)) char_tokenizer
                     "torch" "content" = Raise (KeyError "content").
Proof.
  apply (chunk_and_tokenize_missing_text one_batch (corpus ["abc"]%string)
           char_tokenizer "torch" "content" (corpus ["abc"]%string) []).
  - reflexivity.
  - intros Hin. apply list_elem_of_In in Hin. cbn in Hin.
    destruct Hin as [Hin|[]]. discriminate Hin.
Defined.

(** *** The ratio of nats per token to bits per byte *)

Section RatioFacts.
Variable split_batches : Dataset → list Dataset.

Lemma concat_fmap_inv {A B} (f : A → B) (cols : list (list B)) (xs : list A) :
  concat cols = f <$> xs →
  ∃ xss : list (list A), cols = fmap (M:=list) (fmap (M:=list) f) xss ∧ concat xss = xs.
Proof.
  revert xs. induction cols as [|col cols IH]; intros xs H; cbn in H.
  - exists []. split; [done|]. symmetry in H. by apply fmap_nil_inv in H.
  - symmetry in H. apply fmap_app_inv in H as (l1 & l2 & -> & Hl2 & ->).
    destruct (IH l2) as (xss & -> & <-); [done|].
    by exists (l1 :: xss).
Qed.

(** A function that gives every batch one column gives the dataset that
    column, batch after batch. *)
Lemma Dataset_map_column (fn : Dataset → result Dataset) remove d k vs :
  split_batches d ≠ [] →
  Forall2 (λ b v, fn b = Ok [(k, v)]) (split_batches d) vs →
  ∃ mapped, Dataset_map split_batches fn remove d = Ok mapped ∧
            getitem mapped k = Ok (concat vs).
Proof.
  intros Hne Hb. unfold Dataset_map.
  set (upd := λ (b : Dataset) (v : list cell),
                dict_update (remove_columns remove b) [(k, v)]).
  assert (Hmap : mapM (λ b, out ← fn b;
                            Ok (dict_update (remove_columns remove b) out))
                      (split_batches d) =
                 Ok (zip_with upd (split_batches d) vs)).
  { apply mapM_Forall2_Ok. clear Hne.
    induction Hb as [|b v bs vs' Hv _ IH]; [constructor|].
    cbn. constructor; [|exact IH]. rewrite Hv. done. }
  assert (Hcols : map (λ o, column o k) (zip_with upd (split_batches d) vs) = vs).
  { clear Hne Hmap. induction Hb as [|b v bs vs' Hv _ IH]; [done|].
    cbn [zip_with map]. rewrite IH. f_equal.
    unfold upd. rewrite column_dict_update by (cbn; left).
    unfold column. cbn. by rewrite bool_decide_eq_true_2. }
  rewrite Hmap. cbn [mbind result_bind].
  destruct (split_batches d) as [|b0 bs]; [done|].
  destruct vs as [|v0 vs]; [by apply Forall2_length in Hb|].
  eexists. split; [reflexivity|].
  cbn [zip_with] in *. unfold concat_batches.
  rewrite (getitem_map_key_Ok
             (λ k', concat (map (λ b, column b k') (upd b0 v0 :: zip_with upd bs vs)))).
  - by rewrite Hcols.
  - unfold upd, dict_update. rewrite fmap_app, elem_of_app. right. cbn. left.
Qed.

Lemma byte_counts_fn_texts b texts :
  getitem b "text" = Ok (Str <$> texts) →
  byte_counts_fn b = Ok [("length"%string, Int <$> (String.length <$> texts))].
Proof.
  intros Hb. unfold byte_counts_fn. rewrite Hb. cbn [mbind result_bind].
  assert (Hm : mapM encoded_length (Str <$> texts) = Ok (String.length <$> texts)).
  { clear. induction texts as [|t ts IH]; [done|]. cbn. rewrite IH. done. }
  rewrite Hm. done.
Qed.

Lemma token_counts_fn_ids b idss :
  getitem b "input_ids" = Ok (Ints <$> idss) →
  token_counts_fn b = Ok [("length"%string, Int <$> (List.length <$> idss))].
Proof.
  intros Hb. unfold token_counts_fn. rewrite Hb. cbn [mbind result_bind].
  assert (Hm : mapM py_len (Ints <$> idss) = Ok (List.length <$> idss)).
  { clear. induction idss as [|t ts IH]; [done|]. cbn. rewrite IH. done. }
  rewrite Hm. done.
Qed.

Lemma sum_length_column d ns :
  getitem d "length" = Ok (Int <$> ns) → sum_length (DS d) = Ok (sum_list ns).
Proof.
  intros Hd. unfold sum_length. rewrite Hd. cbn [mbind result_bind].
  assert (Hm : mapM as_int (Int <$> ns) = Ok ns).
  { clear. induction ns as [|n ns IH]; [done|]. cbn. rewrite IH. done. }
  rewrite Hm. done.
Qed.

Lemma counted {A} (fn : Dataset → result Dataset) (wrap : A → cell)
  (size : A → nat) key remove d (xs : list A) :
  (∀ b ys, getitem b key = Ok (wrap <$> ys) →
           fn b = Ok [("length"%string, Int <$> (size <$> ys))]) →
  batches_hold split_batches key d (wrap <$> xs) →
  ∃ mapped, Dataset_map split_batches fn remove d = Ok mapped ∧
            sum_length (DS mapped) = Ok (sum_list (size <$> xs)).
Proof.
  intros Hfn (Hne & cols & Hcols & Hcat).
  apply concat_fmap_inv in Hcat as (xss & -> & <-).
  destruct (Dataset_map_column fn remove d "length"
              (map (λ ys : list A, map Int (map size ys)) xss) Hne)
    as (mapped & Hmap & Hget).
  { apply Forall2_fmap_r. apply Forall2_fmap_r in Hcols.
    eapply Forall2_impl; [exact Hcols|]. intros b ys Hb. cbn in *. by apply Hfn. }
  exists mapped. split; [done|]. apply sum_length_column. rewrite Hget.
  f_equal. clear. induction xss as [|ys xss IH]; [done|].
  cbn [map concat]. rewrite IH, !fmap_app. done.
Qed.

(** X6.  On two datasets the ratio is the number of tokens of the
    tokenized dataset over the number of bytes of the raw texts, over
    ln 2, whatever the batches are; when the raw texts hold no byte at
    all the division raises [ZeroDivisionError]. *)
Theorem compute_nats_to_bpb_ratio_value (raw tokenized : Dataset)
  (texts : list string) (idss : list (list nat)) :
  batches_hold split_batches "text" raw (Str <$> texts) →
  batches_hold split_batches "input_ids" tokenized (Ints <$> idss) →
  let total_bytes := sum_list (String.length <$> texts) in
  let total_tokens := sum_list (List.length <$> idss) in
  (total_bytes = 0 →
   compute_nats_to_bpb_ratio split_batches (DS raw) (DS tokenized) =
     Raise (ForeignError "ZeroDivisionError")) ∧
  (total_bytes ≠ 0 →
   compute_nats_to_bpb_ratio split_batches (DS raw) (DS tokenized) =
     Ok (INR total_tokens / INR total_bytes / ln 2)%R).
Proof.
  intros Hraw Htok total_bytes total_tokens.
  destruct (counted byte_counts_fn Str String.length "text" (column_names raw)
              raw texts byte_counts_fn_texts Hraw) as (bc & Hbc & Hbytes).
  destruct (counted token_counts_fn Ints List.length "input_ids"
              (column_names tokenized) tokenized idss token_counts_fn_ids Htok)
    as (tc & Htc & Htokens).
  assert (Hrun : compute_nats_to_bpb_ratio split_batches (DS raw) (DS tokenized) =
                 if bool_decide (total_bytes = 0)
                 then Raise (ForeignError "ZeroDivisionError")
                 else Ok (INR total_tokens / INR total_bytes / ln 2)%R).
  { unfold compute_nats_to_bpb_ratio.
    cbn [get_columns_all_equal data_map mbind result_bind].
    rewrite Hbc. cbn [mbind result_bind]. rewrite Htc. cbn [mbind result_bind].
    rewrite Hbytes. cbn [mbind result_bind]. rewrite Htokens. done. }
  rewrite Hrun. split; intros H.
  - by rewrite bool_decide_eq_true_2.
  - by rewrite bool_decide_eq_false_2.
Qed.

Lemma mapM_keys {A} (f : Dataset → result A) (dd : DatasetDict) dd' :
  mapM (λ kv : string * Dataset, d' ← f kv.2; Ok (kv.1, d')) dd = Ok dd' →
  dd'.*1 = dd.*1.
Proof.
  revert dd'. induction dd as [|[k d] dd IH]; intros dd' H; cbn in H.
  - by injection H as <-.
  - destruct (f d) as [a|]; cbn in H; [|discriminate].
    destruct (mapM _ dd) as [rest|] eqn:Hrest; cbn in H; [|discriminate].
    injection H as <-. cbn. f_equal. by apply IH.
Qed.

(** X7.  On a [DatasetDict] with no split called "length" the ratio is never
    computed: once both maps are done, [byte_counts["length"]] raises
    [KeyError]. *)
Theorem compute_nats_to_bpb_ratio_DatasetDict (dd : DatasetDict) (tokenized : data) :
  "length"%string ∉ dd.*1 →
  is_ok (compute_nats_to_bpb_ratio split_batches (DD dd) tokenized) = false ∧
  (∀ remove byte_counts remove' token_counts,
     get_columns_all_equal (DD dd) = Ok remove →
     data_map split_batches byte_counts_fn remove (DD dd) = Ok byte_counts →
     get_columns_all_equal tokenized = Ok remove' →
     data_map split_batches token_counts_fn remove' tokenized = Ok token_counts →
     compute_nats_to_bpb_ratio split_batches (DD dd) tokenized =
       Raise (KeyError "length")).
Proof.
  intros Hkey.
  assert (Hsum : ∀ remove byte_counts,
            data_map split_batches byte_counts_fn remove (DD dd) = Ok byte_counts →
            sum_length byte_counts = Raise (KeyError "length")).
  { intros remove bc Hbc. cbn in Hbc.
    destruct (mapM _ dd) as [dd'|] eqn:Hdd; [|discriminate].
    injection Hbc as <-. apply mapM_keys in Hdd.
    unfold sum_length. rewrite getitem_missing by (by rewrite Hdd). done. }
  assert (Hcases : ∀ remove byte_counts remove' token_counts,
     get_columns_all_equal (DD dd) = Ok remove →
     data_map split_batches byte_counts_fn remove (DD dd) = Ok byte_counts →
     get_columns_all_equal tokenized = Ok remove' →
     data_map split_batches token_counts_fn remove' tokenized = Ok token_counts →
     compute_nats_to_bpb_ratio split_batches (DD dd) tokenized =
       Raise (KeyError "length")).
  { intros remove bc remove' tc Hr Hbc Hr' Htc. unfold compute_nats_to_bpb_ratio.
    rewrite Hr. cbn [mbind result_bind]. rewrite Hbc. cbn [mbind result_bind].
    rewrite Hr'. cbn [mbind result_bind]. rewrite Htc. cbn [mbind result_bind].
    by rewrite (Hsum remove bc Hbc). }
  split; [|exact Hcases].
  destruct (get_columns_all_equal (DD dd)) as [remove|] eqn:Hr;
    [|unfold compute_nats_to_bpb_ratio; by rewrite Hr].
  destruct (data_map split_batches byte_counts_fn remove (DD dd)) as [bc|] eqn:Hbc;
    [|unfold compute_nats_to_bpb_ratio; rewrite Hr; cbn [mbind result_bind];
      by rewrite Hbc].
  destruct (get_columns_all_equal tokenized) as [remove'|] eqn:Hr';
    [|unfold compute_nats_to_bpb_ratio; rewrite Hr; cbn [mbind result_bind];
      rewrite Hbc; cbn [mbind result_bind]; by rewrite Hr'].
  destruct (data_map split_batches token_counts_fn remove' tokenized) as [tc|] eqn:Htc;
    [|unfold compute_nats_to_bpb_ratio; rewrite Hr; cbn [mbind result_bind];
      rewrite Hbc; cbn [mbind result_bind]; rewrite Hr'; cbn [mbind result_bind];
      by rewrite Htc].
  by rewrite (Hcases remove bc remove' tc).
Qed.

End RatioFacts.

Lemma compute_nats_to_bpb_ratio_value_witness :
  compute_nats_to_bpb_ratio one_batch (DS (corpus ["abc"; "defg"]%string))
                            (DS two_records) =
  Ok (INR 3 / INR 7 / ln 2)%R.
Proof.
  refine (proj2 (compute_nats_to_bpb_ratio_value one_batch
                   (corpus ["abc"; "defg"]%string) two_records
                   ["abc"; "defg"]%string [[97; 98]; [99]] _ _) _).
  - split; [discriminate|].
    exists [Str <$> ["abc"; "defg"]%string]. split; [|reflexivity].
    repeat constructor.
  - split; [discriminate|].
    exists [Ints <$> [[97; 98]; [99]]]. split; [|reflexivity].
    repeat constructor.
  - cbn. lia.
Defined.

Lemma compute_nats_to_bpb_ratio_DatasetDict_witness :
  is_ok (compute_nats_to_bpb_ratio one_batch (DD two_splits) (DS two_records)) = false.
Proof.
  apply (compute_nats_to_bpb_ratio_DatasetDict one_batch two_splits (DS two_records)).
  intros Hin. apply list_elem_of_In in Hin. cbn in Hin.
  destruct Hin as [Hin|[Hin|[]]]; discriminate Hin.
Defined.

End DataMore.

(** ** plotting.py: the range of the entropy and of the divergence *)

Module MetricBounds.
Import Torch Stream Recorder Plotting TorchFacts.




(** *** One term of the sums *)













End MetricBounds.

(** ** plotting.py: more extra layers than blocks, and the metric names *)

Module LensMore.
Import Torch Stream Recorder Plotting LensFacts.

Lemma py_index_from_end {A} (l : list A) (i : nat) (a : A) :
  l !! i = Some a →
  py_index l (Z.of_nat i - Z.of_nat (List.length l)) = Ok a.
Proof.
  intros Hi. pose proof (lookup_lt_Some _ _ _ Hi) as Hlt. unfold py_index.
  assert (Hneg : (Z.of_nat i - Z.of_nat (List.length l) <? 0)%Z = true)
    by (apply Z.ltb_lt; lia).
  rewrite Hneg. cbn zeta.
  replace (Z.of_nat i - Z.of_nat (List.length l) + Z.of_nat (List.length l))%Z
    with (Z.of_nat i) by lia.
  assert (Hpos : (Z.of_nat i <? 0)%Z = false) by (apply Z.ltb_ge; lia).
  rewrite Hpos, Nat2Z.id, Hi. done.
Qed.

Lemma foldlM_blocks_at (g : nat → Z) (layers : list Block) (n a : nat) (x : Tensor) :
  (∀ i layer, layers !! i = Some layer → py_index layers (g i) = Ok layer) →
  a + n ≤ List.length layers →
  foldlM (λ x i, layer ← py_index layers i; Ok (layer x).1)
         (map g (seq a n)) x =
  Ok (rerun (take n (drop a layers)) x).
Proof.
  intros Hg. revert a x. induction n as [|n IH]; intros a x Hlen; [done|].
  destruct (lookup_lt_is_Some_2 layers a) as [layer Hl]; [lia|].
  cbn [seq map foldlM]. rewrite (Hg _ _ Hl). cbn.
  rewrite IH by lia. rewrite (drop_S _ _ _ Hl). done.
Qed.

Lemma foldlM_app {A B} (f : A → B → result A) (l1 l2 : list B) (a : A) :
  foldlM f (l1 ++ l2) a = a' ← foldlM f l1 a; foldlM f l2 a'.
Proof.
  revert a. induction l1 as [|b l1 IH]; intros a; [done|]. cbn.
  destruct (f a b); cbn; [apply IH|done].
Qed.

Lemma py_range_wraps (len : nat) (k : Z) :
  (Z.of_nat len < k ≤ 2 * Z.of_nat len)%Z →
  py_range (Z.of_nat len - k) (Z.of_nat len) =
  map (λ i, Z.of_nat i - Z.of_nat len)%Z
      (seq (2 * len - Z.to_nat k) (Z.to_nat k - len)) ++
  map Z.of_nat (seq 0 len).
Proof.
  intros Hk. unfold py_range.
  replace (Z.of_nat len - (Z.of_nat len - k))%Z with k by lia.
  replace (Z.to_nat k) with ((Z.to_nat k - len) + len) at 1 by lia.
  rewrite seq_app, map_app. f_equal.
  - rewrite <- (Nat.add_0_r (2 * len - Z.to_nat k)).
    rewrite <- fmap_add_seq.
    change (map ?f (?g <$> ?l)) with (map f (map g l)).
    rewrite map_map. apply map_ext_in. intros j Hj%in_seq. lia.
  - cbn [Nat.add]. rewrite <- (Nat.add_0_r (Z.to_nat k - len)) at 1.
    rewrite <- fmap_add_seq.
    change (map ?f (?g <$> ?l)) with (map f (map g l)).
    rewrite map_map. apply map_ext_in. intros j Hj%in_seq. lia.
Qed.

(** X10.  Asked for more blocks than the model has, but not more than
    twice as many, the decoder does not fail: the indices below zero count
    from the end, so it runs the last [k - L] blocks and then all [L]
    blocks. *)
Theorem decode_fn_wraps_around (layers : list Block) (E ln_f : Tensor → Tensor)
  (k : Z) (x : Tensor) :
  (Z.of_nat (List.length layers) < k ≤ 2 * Z.of_nat (List.length layers))%Z →
  decode_fn layers E ln_f k x =
  Ok (log_softmax (E (ln_f
        (rerun (drop (2 * List.length layers - Z.to_nat k) layers ++ layers) x)))).
Proof.
  intros Hk. unfold decode_fn. rewrite py_range_wraps by done.
  rewrite foldlM_app.
  rewrite (foldlM_blocks_at (λ i, Z.of_nat i - Z.of_nat (List.length layers))%Z)
    by (first [apply py_index_from_end | lia]).
  cbn [mbind result_bind].
  rewrite (foldlM_blocks_at Z.of_nat) by (first [apply py_index_nat | lia]).
  cbn [mbind result_bind].
  rewrite !take_ge by (rewrite length_drop; lia).
  rewrite drop_0. unfold rerun. by rewrite foldl_app.
Qed.

Lemma decode_fn_wraps_around_witness :
  decode_fn [Toy.block; Toy.block] (λ x, x) (λ x, x) 3 Toy.one =
  Ok (log_softmax
        (rerun (drop (2 * 2 - Z.to_nat 3) [Toy.block; Toy.block]
                ++ [Toy.block; Toy.block]) Toy.one)).
Proof.
  apply (decode_fn_wraps_around [Toy.block; Toy.block] (λ x, x) (λ x, x) 3 Toy.one).
  cbn. lia.
Defined.

Lemma py_index_below {A} (l : list A) (i : Z) :
  (i + Z.of_nat (List.length l) < 0)%Z →
  py_index l i = Raise (IndexError "index out of range").
Proof.
  intros Hi. unfold py_index.
  assert (Hneg : (i <? 0)%Z = true) by (apply Z.ltb_lt; lia).
  rewrite Hneg. cbn zeta.
  assert (Hneg' : (i + Z.of_nat (List.length l) <? 0)%Z = true)
    by (apply Z.ltb_lt; lia).
  by rewrite Hneg'.
Qed.

(** X11.  Asked for more than twice as many blocks as the model has, the
    decoder raises [IndexError] at its first index. *)
Theorem decode_fn_index_error (layers : list Block) (E ln_f : Tensor → Tensor)
  (k : Z) (x : Tensor) :
  (2 * Z.of_nat (List.length layers) < k)%Z →
  decode_fn layers E ln_f k x = Raise (IndexError "index out of range").
Proof.
  intros Hk. unfold decode_fn, py_range.
  replace (Z.of_nat (List.length layers) - (Z.of_nat (List.length layers) - k))%Z
    with k by lia.
  destruct (Z.to_nat k) as [|n] eqn:Hn; [lia|].
  cbn [seq map foldlM]. rewrite py_index_below by lia. done.
Qed.

Lemma decode_fn_index_error_witness :
  decode_fn [Toy.block; Toy.block] (λ x, x) (λ x, x) 5 Toy.one =
  Raise (IndexError "index out of range").
Proof.
  apply (decode_fn_index_error [Toy.block; Toy.block] (λ x, x) (λ x, x) 5 Toy.one).
  cbn. lia.
Defined.

Section Names.
Variable pairwise_map :
  (Tensor → Tensor → Tensor2) → ResidualStream Tensor → ResidualStream Tensor2.
Variable geodesic_distance js_divergence : Tensor → Tensor → Tensor2.

(** X12.  Lines 77-95 give statistics for exactly four metric names:
    "entropy", "geodesic", "js" and "kl"; every other name, "ce" among
    them, raises. *)
Theorem metric_stats_names (metric : string) (d : Decoded) :
  is_ok (metric_stats pairwise_map geodesic_distance js_divergence metric d) = true ↔
  metric ∈ ["entropy"; "geodesic"; "js"; "kl"]%string.
Proof.
  unfold metric_stats. rewrite !elem_of_cons, elem_of_nil.
  repeat case_bool_decide; subst; cbn; split; try done; try tauto.
  intros [H|[H|[H|[H|[]]]]]; discriminate H.
Qed.

End Names.

End LensMore.

(** ** plotting.py: the rows of the heat map and their labels *)

Module StrideFacts.
Import Torch Stream Recorder Plotting.














End StrideFacts.

(** ** plotting.py: means shorter than the stream *)

Module MeansMore.
Import Torch Stream Recorder Plotting MeansFacts.

Lemma zip_take_l {A B} (states : list A) (ms : list B) :
  zip states ms = zip (take (List.length ms) states) ms.
Proof.
  revert ms. induction states as [|s states IH]; intros [|m ms]; try done.
  cbn. f_equal. apply IH.
Qed.

(** X15.  Means without a layer entry make the loop raise [IndexError],
    whatever the stream is.  Otherwise the loop pairs stream and means from
    the end, and an entry of the stream that has no partner keeps its
    tensor. *)
Theorem add_residual_means_unpaired (h : gmap nat Tensor)
  (stream residual_means : ResidualStream nat) :
  (layers residual_means = [] →
   add_residual_means h stream residual_means =
     Raise (IndexError "list index out of range")) ∧
  (∀ h', add_residual_means h stream residual_means = Ok h' →
     NoDup (tensors stream) →
     ∀ i state, reverse (tensors stream) !! i = Some state →
                List.length residual_means ≤ i →
                h' !! state = h !! state).
Proof.
  split.
  - intros Hnone. unfold add_residual_means. by rewrite Hnone.
  - intros h' Hrun Hnd i state Hstate Hi. unfold add_residual_means in Hrun.
    destruct (layers residual_means) as [|first rest]; [discriminate|].
    injection Hrun as <-. rewrite zip_take_l.
    apply accumulate_elsewhere. intros Hin.
    apply elem_of_take in Hin as (j & Hj & Hlt).
    rewrite length_reverse in Hlt. unfold tensors in Hlt.
    rewrite length_fmap in Hlt.
    assert (NoDup (reverse (tensors stream))) as Hnd'
      by (by rewrite reverse_Permutation).
    pose proof (NoDup_lookup _ _ _ _ Hnd' Hstate Hj). lia.
Qed.

Lemma add_residual_means_unpaired_witness :
  ∃ h', add_residual_means Toy.ones_store Toy.two_entries Toy.last_mean = Ok h' ∧
        h' !! 0 = Toy.ones_store !! 0.
Proof.
  destruct (add_residual_means_unpaired Toy.ones_store Toy.two_entries Toy.last_mean)
    as [_ Hkeep].
  eexists. split; [reflexivity|].
  apply (Hkeep _ eq_refl) with (i := 1).
  - apply (bool_decide_unpack _). vm_compute. exact I.
  - reflexivity.
  - cbn. lia.
Defined.

End MeansMore.

(** ** plotting.py: what a call returns and what it draws *)

Module PlotMore.
Import Torch Stream Recorder Plotting RecorderFacts PlotFacts StrideFacts.






Section Calls.
Variable AutoModelForCausalLM_from_pretrained : string → result Model.
Variable AutoTokenizer_from_pretrained : string → result Tokenizer.
Variable argmax_tokens : Tensor → list nat.
Variable str_replace : string → string → string → string.
Variable pairwise_map :
  (Tensor → Tensor → Tensor2) → ResidualStream Tensor → ResidualStream Tensor2.
Variable geodesic_distance js_divergence : Tensor → Tensor → Tensor2.

Abbreviation run_inference :=
  (_run_inference AutoModelForCausalLM_from_pretrained
                  AutoTokenizer_from_pretrained).
Abbreviation decode :=
  (decode_stage AutoModelForCausalLM_from_pretrained
                AutoTokenizer_from_pretrained argmax_tokens str_replace).
Abbreviation stats := (metric_stats pairwise_map geodesic_distance js_divergence).
Abbreviation plot :=
  (plot_logit_lens AutoModelForCausalLM_from_pretrained
                   AutoTokenizer_from_pretrained argmax_tokens str_replace
                   pairwise_map geodesic_distance js_divergence).

(** What [_run_inference] returns for a given model once the tokenizer and
    the input are there. *)
Lemma run_inference_given model tk ids ids_opt text tok sub sp ep (w : World) :
  fresh_above w → NoDup (capture_points model sub) →
  load_tokenizer AutoTokenizer_from_pretrained model tok w = (w, Ok tk) →
  chosen_input tk text ids_opt = Some ids →
  run_inference (AModel model) ids_opt text tok sub sp ep w =
    ((record_residual_stream model sub (call_model model ids) w).1,
     match (forward model ids).2 with
     | Ok out =>
         let stream := captured (capture_points model sub) (forward model ids).1 in
         let tokens := convert_ids_to_tokens tk ids in
         Ok (if (0 <? sp)%Z
             then (model, py_slice sp ep tokens,
                   {| logits := slice_positions sp ep out |},
                   smap (slice_positions sp ep) stream)
             else (model, tokens, {| logits := out |}, stream))
     | Raise e => Raise e
     end).
Proof.
  intros Hw Hnd Htok Hin. unfold _run_inference.
  unfold mbind at 1, M_bind at 1. cbn [load_model mret M_ret].
  unfold mbind at 1, M_bind at 1. rewrite Htok.
  unfold mbind at 1, M_bind at 1.
  assert (Hinput :
    match text with
    | Some t => mret (encode tk t)
    | None => match ids_opt with
              | None => raise (ValueError "Either text or input_ids must be provided")
              | Some ids => mret ids
              end
    end w = (w, Ok ids)).
  { unfold chosen_input in Hin. destruct text as [t|].
    - by injection Hin as <-.
    - by destruct ids_opt as [i|]; [injection Hin as <-|]. }
  rewrite Hinput. unfold mbind, M_bind. rewrite record_call by done.
  cbn [fst snd]. destruct (forward model ids).2 as [out|e]; [|done].
  by destruct (0 <? sp)%Z.
Qed.


(** X17.  Slicing happens only for a positive [start_pos]: with
    [start_pos <= 0] the call is the call with the defaults, so a given
    [end_pos] is not looked at and nothing is cut off. *)
Theorem run_inference_ignores_end_pos mo ids text tok sub sp ep (w : World) :
  (sp ≤ 0)%Z →
  run_inference mo ids text tok sub sp ep w =
  run_inference mo ids text tok sub 0 None w.
Proof.
  intros Hsp. unfold _run_inference.
  assert ((0 <? sp)%Z = false) as -> by (by apply Z.ltb_ge).
  reflexivity.
Qed.

Lemma decode_without_tokenizer a w :
  tokenizer a = None → is_ok (decode a w).2 = false.
Proof.
  intros Hnone. unfold decode_stage.
  unfold mbind at 1, M_bind at 1.
  destruct (run_inference _ _ _ _ _ _ _ w)
    as [w1 [[[[model toks] out] stream]|e]]; [|done].
  unfold mbind at 1, M_bind at 1, lift at 1.
  destruct (match residual_means a with Some _ => _ | None => _ end)
    as [stream'|e]; [|done].
  unfold mbind at 1, M_bind at 1, lift at 1.
  destruct (match tuned_lens a with Some _ => _ | None => _ end)
    as [lps|e]; [|done].
  by rewrite Hnone.
Qed.

(** X18.  A call that leaves [tokenizer] out (the default) never succeeds
    and draws nothing, although [_run_inference] loads a tokenizer of its
    own: line 70 asks the function's argument, which is still [None].
    With a given model, a tuned lens and no residual means, once the
    tokenizer is loaded and the forward pass has returned, the call ends
    with the [AttributeError] of that line. *)
Theorem plot_needs_tokenizer (a : LensArgs) (w : World) :
  tokenizer a = None →
  figure (plot a w).1 = figure w ∧
  is_ok (plot a w).2 = false ∧
  (∀ model tk ids out lens,
     model_or_name a = AModel model →
     fresh_above w → NoDup (capture_points model (sublayers a)) →
     AutoTokenizer_from_pretrained (name_or_path model) = Ok tk →
     chosen_input tk (text a) (input_ids a) = Some ids →
     (forward model ids).2 = Ok out →
     residual_means a = None → tuned_lens a = Some lens →
     (plot a w).2 = Raise (AttributeError "convert_ids_to_tokens")).
Proof.
  intros Hnone.
  pose proof (decode_keeps AutoModelForCausalLM_from_pretrained
                AutoTokenizer_from_pretrained argmax_tokens str_replace a w) as Hfig.
  pose proof (decode_without_tokenizer a w Hnone) as Hfail.
  rewrite plot_unfold.
  split; [|split].
  - by destruct (decode a w) as [w1 [d|e]].
  - by destruct (decode a w) as [w1 [d|e]].
  - intros model tk ids out lens Hmodel Hw Hnd Htk Hin Hout Hmeans Hlens.
    assert (Hdecode : (decode a w).2 = Raise (AttributeError "convert_ids_to_tokens")).
    { unfold decode_stage. unfold mbind at 1, M_bind at 1.
      rewrite Hmodel, Hnone.
      rewrite (run_inference_given model tk ids); [|done|done| |done].
      - rewrite Hout. cbn zeta.
        destruct (0 <? start_pos a)%Z;
          unfold mbind at 1, M_bind at 1, lift at 1; rewrite Hmeans;
          unfold mbind at 1, M_bind at 1, lift at 1; rewrite Hlens; reflexivity.
      - unfold load_tokenizer, lift. by rewrite Htk. }
    destruct (decode a w) as [w1 [d|e]]; cbn in Hdecode; [discriminate|].
    by injection Hdecode as ->.
Qed.

Lemma plot_stream_zero_stride (color_stream : ResidualStream (list R))
  (text_stream : ResidualStream (list string)) x_labels colorbar_label fmt vmax
  (w : World) :
  _plot_stream color_stream text_stream x_labels colorbar_label fmt 0 vmax w =
    (w, Raise (ValueError "slice step cannot be zero")).
Proof. reflexivity. Qed.

(** X19.  A stride of zero never succeeds and draws nothing: no figure is
    opened before the rows are picked.  When the statistics are there and
    hold at least one entry, the call ends with the [ValueError] of the
    slice. *)
Theorem plot_zero_stride (a : LensArgs) (w : World) :
  layer_stride a = 0%Z →
  figure (plot a w).1 = figure w ∧
  is_ok (plot a w).2 = false ∧
  (∀ w1 d st top mc,
     decode a w = (w1, Ok d) → stats (metric a) d = Ok (st, top, mc) →
     st ≠ [] →
     plot a w = (w1, Raise (ValueError "slice step cannot be zero"))).
Proof.
  intros Hzero.
  pose proof (decode_keeps AutoModelForCausalLM_from_pretrained
                AutoTokenizer_from_pretrained argmax_tokens str_replace a w) as Hfig.
  rewrite plot_unfold, Hzero.
  destruct (decode a w) as [w1 [d|e]]; cbn [fst snd] in Hfig.
  - destruct (stats (metric a) d) as [[[st top] mc]|e] eqn:Hs.
    + unfold mbind, M_bind. rewrite !plot_stream_zero_stride.
      split; [done|]. split; [done|].
      by intros w' d' st' top' mc' [= <- <-] _ _.
    + split; [done|]. split; [done|].
      intros w' d' st' top' mc' [= <- <-] Hs' _. rewrite Hs in Hs'. discriminate.
  - split; [done|]. split; [done|]. by intros w' d' st' top' mc' [=] _ _.
Qed.




End Calls.


Lemma run_inference_ignores_end_pos_witness :
  Toy.run_inference (AModel Toy.model) None (Some "abc"%string)
                    (Some Toy.chars) false 0%Z (Some 1%Z) Toy.world =
  Toy.run_inference (AModel Toy.model) None (Some "abc"%string)
                    (Some Toy.chars) false 0%Z None Toy.world.
Proof.
  apply (run_inference_ignores_end_pos Toy.nothing_pretrained
           Toy.nothing_pretrained). lia.
Defined.

Lemma plot_needs_tokenizer_witness :
  (plot_logit_lens Toy.nothing_pretrained Toy.load_chars Toy.argmax_tokens
     Toy.str_replace Toy.pairwise_map Toy.distance Toy.distance
     Toy.args_without_tokenizer Toy.world).2 =
    Raise (AttributeError "convert_ids_to_tokens").
Proof.
  destruct (plot_needs_tokenizer Toy.nothing_pretrained Toy.load_chars
              Toy.argmax_tokens Toy.str_replace Toy.pairwise_map Toy.distance
              Toy.distance Toy.args_without_tokenizer Toy.world eq_refl)
    as (_ & _ & Hrun).
  apply (Hrun Toy.model Toy.chars (encode Toy.chars "ab")
              (Toy.hidden (encode Toy.chars "ab")) Toy.lens).
  - reflexivity.
  - constructor.
  - apply (bool_decide_unpack _). vm_compute. exact I.
  - reflexivity.
  - reflexivity.
  - reflexivity.
  - reflexivity.
  - reflexivity.
Defined.

Lemma plot_zero_stride_witness :
  figure (Toy.plot (Toy.args_with_stride 0) Toy.world).1 = [] ∧
  is_ok (Toy.plot (Toy.args_with_stride 0) Toy.world).2 = false.
Proof.
  destruct (plot_zero_stride Toy.nothing_pretrained Toy.nothing_pretrained
              Toy.argmax_tokens Toy.str_replace Toy.pairwise_map Toy.distance
              Toy.distance (Toy.args_with_stride 0) Toy.world eq_refl)
    as (Hfig & Hfail & _).
  split; [exact Hfig|exact Hfail].
Defined.


End PlotMore.
